(** * MCP example servers: the session-registry (SSE) and streamable transports

    A shallow embedding of [python/sse/app.py] and [python/streamable/app.py].
    Both files dispatch a decoded JSON-RPC request; the first delivers the
    response through a per-session queue that a long-lived GET stream drains,
    the second answers in the body of the POST, either as one JSON document or
    as a finite stream of framed events.

    Layout: the Python values and built-ins the two programs use, then one
    module per source file, then the theorems, then the theorems on sample
    requests. *)

From Stdlib Require Import Ascii String.
From Stdlib.Strings Require Import Byte.
From stdpp Require Import base option list gmap strings pretty.

Local Open Scope Z_scope.

(** ** Text

    A Python [str] is a sequence of Unicode code points, lone surrogates
    included: [json.loads] builds one from an escape such as [\ud800].  A
    literal below stands for the code points of its characters; the literals
    of this file are ASCII, and text outside ASCII is written as a list of
    numbers.  The type [literal] serves to read and print the literals, and
    nothing else. *)

Abbreviation str := (list N).

Inductive literal :=
| lit_nil
| lit_cons (c : N) (rest : literal).

Fixpoint literal_of_bytes (bytes : list Byte.byte) : literal :=
  match bytes with
  | [] => lit_nil
  | b :: rest => lit_cons (Byte.to_N b) (literal_of_bytes rest)
  end.

Fixpoint bytes_of_literal (l : literal) : option (list Byte.byte) :=
  match l with
  | lit_nil => Some []
  | lit_cons c rest =>
      match Byte.of_N c, bytes_of_literal rest with
      | Some b, Some bytes => Some (b :: bytes)
      | _, _ => None
      end
  end.

Declare Scope str_scope.
Delimit Scope str_scope with str.
#[warnings="-via-type-remapping,-via-type-mismatch"]
String Notation list literal_of_bytes bytes_of_literal
  (via literal mapping [[nil] => lit_nil, [cons] => lit_cons]) : str_scope.
Open Scope str_scope.

(** [a == b] on two [str]. *)
Fixpoint str_eqb (a b : str) : bool :=
  match a, b with
  | [], [] => true
  | x :: a', y :: b' => (x =? y)%N && str_eqb a' b'
  | _, _ => false
  end.

(** The text of a [string] of the library, which is how numbers are
    printed below. *)
Definition of_string (s : string) : str :=
  (λ a, N_of_ascii a) <$> list_ascii_of_string s.

Definition chr (n : N) : str := [n].

Definition LF : str := chr 10.
Definition QUOTE : str := chr 34.
Definition BACKSLASH : str := chr 92.

(** The rows of the Unicode character database that the programs reach
    through [str.upper] and [repr]: the full uppercase mapping of a code
    point, which can be several code points, and whether a code point is
    printable.  The theorems hold for every table. *)
Class UnicodeData := {
  to_upper_full : N → str;
  is_printable : N → bool;
}.

(** ** Python values

    [request.json()] produces the usual Python objects.  A [float] is
    carried by its [repr], the shortest decimal text that reads back to the
    same number, or [nan], [inf], [-inf]; the programs never compute with a
    float, they only print it or pass it on.  A [dict] keeps its entries in
    insertion order; its keys are distinct, and a lookup reads the first
    entry of a key, so that nothing below depends on it. *)

Inductive value :=
| VNone
| VBool (b : bool)
| VInt (n : Z)
| VFloat (repr : str)
| VStr (s : str)
| VList (items : list value)
| VDict (entries : list (str * value)).

Abbreviation dict := (list (str * value)).

Fixpoint dict_lookup (d : dict) (key : str) : option value :=
  match d with
  | [] => None
  | (k, v) :: rest => if str_eqb k key then Some v else dict_lookup rest key
  end.

(** [d.get(key, default)] on a dict. *)
Definition dict_get (d : dict) (key : str) (default : value) : value :=
  match dict_lookup d key with
  | Some v => v
  | None => default
  end.

(** [d[key] = v]: the value is replaced where the key already is, and a new
    key goes to the end. *)
Fixpoint dict_set (d : dict) (key : str) (v : value) : dict :=
  match d with
  | [] => [(key, v)]
  | (k, old) :: rest =>
      if str_eqb k key then (k, v) :: rest else (k, old) :: dict_set rest key v
  end.

(** Reading a JSON document by field name and by position. *)
Definition field (key : str) (v : value) : option value :=
  match v with
  | VDict d => dict_lookup d key
  | _ => None
  end.

Definition item (i : nat) (v : value) : option value :=
  match v with
  | VList l => l !! i
  | _ => None
  end.

(** A path into a document, as in [result.content[0].text]. *)
Inductive selector :=
| Key (key : str)
| Index (i : nat).

Fixpoint at_path (path : list selector) (v : value) : option value :=
  match path with
  | [] => Some v
  | Key key :: rest =>
      match field key v with
      | Some v' => at_path rest v'
      | None => None
      end
  | Index i :: rest =>
      match item i v with
      | Some v' => at_path rest v'
      | None => None
      end
  end.

Definition has_key (v : value) (key : str) : bool :=
  match field key v with
  | Some _ => true
  | None => false
  end.

(** ** Exceptions

    [JSONDecodeError] and [UnicodeDecodeError] are what [request.json()]
    raises on a body that is not JSON or not UTF-8; [ValueError] and
    [UnicodeEncodeError] are what the rendering of a [JSONResponse] raises.
    The programs catch [KeyError] in one place and nothing else. *)

Inductive exn :=
| AttributeError
| KeyError (key : str)
| ValueError
| UnicodeEncodeError
| UnicodeDecodeError
| JSONDecodeError
| HTTPException (status_code : Z) (detail : str).

Inductive res (A : Type) :=
| Ok (a : A)
| Raise (e : exn).

Arguments Ok {A} a.
Arguments Raise {A} e.

#[global] Instance res_ret : MRet res := λ A a, Ok a.

#[global] Instance res_bind : MBind res := λ A B f m,
  match m with
  | Ok a => f a
  | Raise e => Raise e
  end.

(** ** Built-ins *)

(** [o.get(key, default)]: only a dict has the method. *)
Definition py_get (o : value) (key : str) (default : value) : res value :=
  match o with
  | VDict d => Ok (dict_get d key default)
  | _ => Raise AttributeError
  end.

(** [o == "literal"]: a value that is not a [str] is never equal to one. *)
Definition py_eq_str (o : value) (literal : str) : bool :=
  match o with
  | VStr s => str_eqb s literal
  | _ => false
  end.

Definition is_none (o : value) : bool :=
  match o with
  | VNone => true
  | _ => false
  end.

(** The uppercase of one code point.  In the ASCII range the letters a to z
    move to A to Z and nothing else changes; elsewhere the database decides,
    and one code point can become several, as [ß] becomes [SS]. *)
Definition upper_point `{!UnicodeData} (c : N) : str :=
  if (c <? 128)%N then
    if ((97 <=? c) && (c <=? 122))%N then [(c - 32)%N] else [c]
  else to_upper_full c.

(** [s.upper()]: the uppercase of every code point, in order; the mapping of
    a code point does not depend on its neighbours. *)
Fixpoint str_upper `{!UnicodeData} (s : str) : str :=
  match s with
  | [] => []
  | c :: rest => upper_point c ++ str_upper rest
  end.

(** [o.upper()]: only a [str] has the method. *)
Definition py_upper `{!UnicodeData} (o : value) : res str :=
  match o with
  | VStr s => Ok (str_upper s)
  | _ => Raise AttributeError
  end.

Fixpoint join (sep : str) (parts : list str) : str :=
  match parts with
  | [] => ""
  | [p] => p
  | p :: rest => p ++ sep ++ join sep rest
  end.

Fixpoint contains_char (c : N) (s : str) : bool :=
  match s with
  | [] => false
  | c' :: rest => (c =? c')%N || contains_char c rest
  end.

(** [str(n)] of an [int]. *)
Definition int_repr (n : Z) : str := of_string (pretty n).

Definition hex_digit (d : N) : N :=
  if (d <? 10)%N then (48 + d)%N else (87 + d)%N.

(** The last [width] hexadecimal digits of a number, in lower case. *)
Fixpoint hex (width : nat) (n : N) : str :=
  match width with
  | O => []
  | S width' => hex width' (n / 16)%N ++ [hex_digit (n mod 16)%N]
  end.

(** [repr] of a [str]: apostrophes around it, unless it holds an apostrophe
    and no double quote.  The quote and the backslash get a backslash; tab,
    line feed and carriage return are written [\t], [\n], [\r]; the other
    control characters and the code points that are not printable are
    written in hexadecimal, with two, four or eight digits; everything else,
    printable characters outside ASCII included, is kept. *)
Definition repr_char `{!UnicodeData} (quote : N) (c : N) : str :=
  if ((c =? quote) || (c =? 92))%N then BACKSLASH ++ [c]
  else if (c =? 9)%N then BACKSLASH ++ "t"
  else if (c =? 10)%N then BACKSLASH ++ "n"
  else if (c =? 13)%N then BACKSLASH ++ "r"
  else if ((c <? 32) || (c =? 127))%N then BACKSLASH ++ "x" ++ hex 2 c
  else if (c <? 127)%N then [c]
  else if is_printable c then [c]
  else if (c <=? 255)%N then BACKSLASH ++ "x" ++ hex 2 c
  else if (c <=? 65535)%N then BACKSLASH ++ "u" ++ hex 4 c
  else BACKSLASH ++ "U" ++ hex 8 c.

Fixpoint repr_chars `{!UnicodeData} (quote : N) (s : str) : str :=
  match s with
  | [] => []
  | c :: rest => repr_char quote c ++ repr_chars quote rest
  end.

Definition str_repr `{!UnicodeData} (s : str) : str :=
  let quote : N :=
    if contains_char 39 s && negb (contains_char 34 s) then 34%N else 39%N in
  [quote] ++ repr_chars quote s ++ [quote].

Fixpoint py_repr `{!UnicodeData} (o : value) : str :=
  match o with
  | VNone => "None"
  | VBool true => "True"
  | VBool false => "False"
  | VInt n => int_repr n
  | VFloat r => r
  | VStr s => str_repr s
  | VList l => "[" ++ join ", " (map py_repr l) ++ "]"
  | VDict d =>
      "{" ++ join ", " (map (λ kv, str_repr kv.1 ++ ": " ++ py_repr kv.2) d) ++ "}"
  end.

(** [str(o)]: a [str] is returned as it is, anything else is printed. *)
Definition py_str `{!UnicodeData} (o : value) : str :=
  match o with
  | VStr s => s
  | _ => py_repr o
  end.

(** [json.dumps] with its defaults: [", "] and [": "] as separators, and
    ASCII output.  A printable ASCII character other than the quote and the
    backslash is kept; every other code point is escaped, one beyond the
    basic plane as the two surrogates of its UTF-16 form.  A lone surrogate
    is escaped like any other code point, and [NaN] and the infinities are
    written out: this [dumps] does not fail. *)
Definition json_escape_char (c : N) : str :=
  if (c =? 34)%N then BACKSLASH ++ QUOTE
  else if (c =? 92)%N then BACKSLASH ++ BACKSLASH
  else if (c =? 10)%N then BACKSLASH ++ "n"
  else if (c =? 13)%N then BACKSLASH ++ "r"
  else if (c =? 9)%N then BACKSLASH ++ "t"
  else if (c =? 12)%N then BACKSLASH ++ "f"
  else if (c =? 8)%N then BACKSLASH ++ "b"
  else if ((32 <=? c) && (c <=? 126))%N then [c]
  else if (c <? 65536)%N then BACKSLASH ++ "u" ++ hex 4 c
  else
    let v := (c - 65536)%N in
    BACKSLASH ++ "u" ++ hex 4 (55296 + v / 1024)%N
    ++ BACKSLASH ++ "u" ++ hex 4 (56320 + v mod 1024)%N.

Fixpoint json_escape (s : str) : str :=
  match s with
  | [] => []
  | c :: rest => json_escape_char c ++ json_escape rest
  end.

Definition json_string (s : str) : str :=
  QUOTE ++ json_escape s ++ QUOTE.

Definition json_float (r : str) : str :=
  if str_eqb r "nan" then "NaN"
  else if str_eqb r "inf" then "Infinity"
  else if str_eqb r "-inf" then "-Infinity"
  else r.

Fixpoint json_dumps (o : value) : str :=
  match o with
  | VNone => "null"
  | VBool true => "true"
  | VBool false => "false"
  | VInt n => int_repr n
  | VFloat r => json_float r
  | VStr s => json_string s
  | VList l => "[" ++ join ", " (map json_dumps l) ++ "]"
  | VDict d =>
      "{" ++ join ", " (map (λ kv, json_string kv.1 ++ ": " ++ json_dumps kv.2) d) ++ "}"
  end.

(** ** The framework's side *)

(** A [JSONResponse] renders its content when it is built:
    [json.dumps(content, ensure_ascii=False, allow_nan=False, ...)] and then
    [.encode("utf-8")].  The first raises [ValueError] on a float that is
    [nan] or infinite, wherever it is in the content; the second raises
    [UnicodeEncodeError] on a surrogate in a string or a key. *)
Definition float_in_range (r : str) : bool :=
  negb (str_eqb r "nan" || str_eqb r "inf" || str_eqb r "-inf").

Fixpoint floats_in_range (v : value) : bool :=
  match v with
  | VFloat r => float_in_range r
  | VList l => forallb floats_in_range l
  | VDict d => forallb (λ kv, floats_in_range kv.2) d
  | _ => true
  end.

Definition is_surrogate (c : N) : bool := ((55296 <=? c) && (c <=? 57343))%N.

Definition encodable (s : str) : bool := forallb (λ c, negb (is_surrogate c)) s.

Fixpoint utf8_encodable (v : value) : bool :=
  match v with
  | VStr s => encodable s
  | VList l => forallb utf8_encodable l
  | VDict d => forallb (λ kv, encodable kv.1 && utf8_encodable kv.2) d
  | _ => true
  end.

Definition render (content : value) : res unit :=
  if negb (floats_in_range content) then Raise ValueError
  else if negb (utf8_encodable content) then Raise UnicodeEncodeError
  else Ok ().

(** What the handlers read off a [Request]: the query parameters, one value
    for a name; the outcome of [await request.json()], the decoded body or
    the exception raised on a body that is not JSON; and [url_for] of the
    message route, which can fail. *)
Record Request := {
  query_params : gmap str str;
  json_body : res value;
  url_for_post_message : option str;
}.

(** [not session_id] for an optional [str]: [None] and the empty string. *)
Definition py_not (s : option str) : bool :=
  match s with
  | None => true
  | Some s => str_eqb s ""
  end.

(** An async generator that ends: the chunks it yields, then either the end
    of the iteration or an exception. *)
Inductive agen :=
| Yield (chunk : str) (rest : agen)
| StopAsyncIteration
| Raises (e : exn).

Fixpoint yield_all (chunks : list str) (rest : agen) : agen :=
  match chunks with
  | [] => rest
  | c :: cs => Yield c (yield_all cs rest)
  end.

(** What a client that reads the whole body receives. *)
Fixpoint drain (g : agen) : list str * option exn :=
  match g with
  | Yield c rest => let '(cs, e) := drain rest in (c :: cs, e)
  | StopAsyncIteration => ([], None)
  | Raises e => ([], Some e)
  end.

(** [range(start, stop)]. *)
Definition py_range (start stop : Z) : list Z := seqZ start (stop - start).

(** [int(a / b)]: the quotient rounded towards zero (exact as long as the
    operands fit a double, which they do here). *)
Definition int_truediv (a b : Z) : Z := Z.quot a b.

(** The result of a tool call, as the three call sites write it:
    [{"content": [{"type": "text", "text": text}], "isError": False}]. *)
Definition text_result (text : str) : value :=
  VDict [("content", VList [VDict [("type", VStr "text"); ("text", VStr text)]]);
         ("isError", VBool false)].

(** ** python/sse/app.py *)

Module Sse.

(** A queue is an object on the heap; the registry maps a session id to the
    queue's address, and so does every handler that holds the queue. *)
Abbreviation loc := positive.

Record world := {
  sessions : gmap str loc;
  queues : gmap loc (list str);
}.

Definition initial_world : world := {| sessions := ∅; queues := ∅ |}.

(** Handlers run in a state and error monad over the world: an exception
    keeps the changes made before it. *)
Definition handler (A : Type) : Type := world → res A * world.

#[global] Instance handler_ret : MRet handler := λ A a w, (Ok a, w).

#[global] Instance handler_bind : MBind handler := λ A B f m w,
  match m w with
  | (Ok a, w') => f a w'
  | (Raise e, w') => (Raise e, w')
  end.

Definition raise {A} (e : exn) : handler A := λ w, (Raise e, w).

Definition lift {A} (r : res A) : handler A := λ w, (r, w).

(** [try: body except KeyError: raise replacement]. *)
Definition except_KeyError {A} (body : handler A) (replacement : exn) : handler A := λ w,
  match body w with
  | (Raise (KeyError _), w') => (Raise replacement, w')
  | other => other
  end.

Definition queue_items (w : world) (queue : loc) : list str :=
  default [] (queues w !! queue).

(** [asyncio.Queue()]. *)
Definition Queue_new : handler loc := λ w,
  let queue := fresh (dom (queues w)) in
  (Ok queue, {| sessions := sessions w; queues := <[queue := []]> (queues w) |}).

(** [queue.put(item)]: the queue is unbounded, so the item is appended. *)
Definition Queue_put (queue : loc) (data : str) : handler unit := λ w,
  (Ok (), {| sessions := sessions w;
             queues := <[queue := (queue_items w queue ++ [data])%list]> (queues w) |}).

(** [queue.get()]: the oldest item, or no step while the queue is empty. *)
Definition Queue_get (queue : loc) (w : world) : option (str * world) :=
  match queue_items w queue with
  | [] => None
  | data :: rest =>
      Some (data, {| sessions := sessions w; queues := <[queue := rest]> (queues w) |})
  end.

(** [self._sessions[session_id] = queue]. *)
Definition sessions_setitem (session_id : str) (queue : loc) : handler unit := λ w,
  (Ok (), {| sessions := <[session_id := queue]> (sessions w); queues := queues w |}).

(** [SessionRegistry.create]. *)
Definition create (session_id : str) : handler loc :=
  queue ← Queue_new;
  sessions_setitem session_id queue;;
  mret queue.

(** [SessionRegistry.pop]. *)
Definition pop (session_id : str) : handler (option loc) := λ w,
  (Ok (sessions w !! session_id),
   {| sessions := delete session_id (sessions w); queues := queues w |}).

(** [SessionRegistry.get]. *)
Definition get (session_id : str) : handler loc := λ w,
  match sessions w !! session_id with
  | None => (Raise (KeyError session_id), w)
  | Some queue => (Ok queue, w)
  end.

Definition format_sse (event data : str) : str :=
  "event: " ++ event ++ LF ++ "data: " ++ data ++ LF ++ LF.

Definition perform_to_uppercase `{!UnicodeData} (text : value) : res str := py_upper text.

Definition initialize_result : value :=
  VDict [("protocolVersion", VStr "2025-03-26");
         ("serverInfo", VDict [("name", VStr "Python To-Uppercase Server");
                               ("version", VStr "1.0.0")]);
         ("capabilities", VDict [("tools", VDict [("listChanged", VBool true)])])].

Definition to_uppercase_tool : value :=
  VDict [("name", VStr "to-uppercase");
         ("description", VStr "Converts the input string to uppercase.");
         ("inputSchema",
          VDict [("type", VStr "object");
                 ("properties",
                  VDict [("input",
                          VDict [("type", VStr "string");
                                 ("description",
                                  VStr "The string to be converted to uppercase.")])]);
                 ("required", VList [VStr "input"])])].

(** The [return] at the end of [build_response], which two branches fall
    through to. *)
Definition method_not_found (request_id : value) : value :=
  VDict [("jsonrpc", VStr "2.0"); ("id", request_id);
         ("error", VDict [("code", VInt (-32601)); ("message", VStr "Method not found")])].

Definition build_response `{!UnicodeData} (request_payload : value) : res value :=
  method ← py_get request_payload "method" VNone;
  request_id ← py_get request_payload "id" VNone;
  if py_eq_str method "initialize" then
    let result := initialize_result in
    Ok (VDict [("jsonrpc", VStr "2.0"); ("id", request_id); ("result", result)])
  else if py_eq_str method "tools/list" then
    let result := VDict [("tools", VList [to_uppercase_tool])] in
    Ok (VDict [("jsonrpc", VStr "2.0"); ("id", request_id); ("result", result)])
  else if py_eq_str method "tools/call" then
    params ← py_get request_payload "params" (VDict []);
    name ← py_get params "name" VNone;
    if py_eq_str name "to-uppercase" then
      arguments ← py_get params "arguments" (VDict []);
      input_value ← py_get arguments "input" (VStr "");
      upper ← perform_to_uppercase input_value;
      let result := text_result upper in
      Ok (VDict [("jsonrpc", VStr "2.0"); ("id", request_id); ("result", result)])
    else Ok (method_not_found request_id)
  else Ok (method_not_found request_id).

Inductive Response :=
| JSONResponse (status_code : Z) (content : value).

(** [JSONResponse(status_code=..., content=...)]: the content is rendered
    when the response is built. *)
Definition new_JSONResponse (status_code : Z) (content : value) : res Response :=
  render content;;
  Ok (JSONResponse status_code content).

(** [post_message].  Past the guard [session_id] is a non-empty [str]; the
    body is read after the session has been looked up. *)
Definition post_message `{!UnicodeData} (request : Request) : handler Response :=
  let session_id := query_params request !! "sessionid" in
  if py_not session_id then
    raise (HTTPException 400 "sessionid must be provided for POST requests")
  else
    queue ← except_KeyError (get (default "" session_id))
              (HTTPException 404 "session not found; establish the SSE stream first");
    payload ← lift (json_body request);
    response ← lift (build_response payload);
    Queue_put queue (format_sse "message" (json_dumps response));;
    lift (new_JSONResponse 202 (VDict [("status", VStr "accepted")])).

(** [sse_stream]: the handler registers a queue under the id it drew
    ([uuid.uuid4().hex], an argument here) and returns the stream, whose
    generator has not started yet. *)
Definition sse_stream (session_id : str) : handler loc :=
  create session_id.

Definition endpoint_url (request : Request) (session_id : str) : str :=
  match url_for_post_message request with
  | Some url => url ++ "?sessionid=" ++ session_id
  | None => "/message?sessionid=" ++ session_id
  end.

(** [event_generator], in the steps the event loop runs it: up to the first
    [queue.get()], then one [get] and [yield] at a time, and the [finally]
    block when the stream is cancelled. *)
Definition event_generator_start (request : Request) (session_id : str)
    (queue : loc) : handler unit :=
  Queue_put queue (format_sse "endpoint" (endpoint_url request session_id)).

Definition event_generator_next (queue : loc) (w : world) : option (str * world) :=
  Queue_get queue w.

Definition event_generator_finally (session_id : str) : handler (option loc) :=
  pop session_id.

(** The server as the event loop sees it: the tasks take turns, and these
    are the steps the tasks of this program can take.  The registry's lock
    makes its three methods atomic, which a step already is.  [post_message]
    writes to the world in its last statements only and is one step. *)
Inductive action :=
| GetSse (session_id : str)
| GeneratorStart (request : Request) (session_id : str) (queue : loc)
| GeneratorNext (queue : loc)
| GeneratorClose (session_id : str)
| PostMessage (request : Request).

Definition step `{!UnicodeData} (w : world) (a : action) : world :=
  match a with
  | GetSse session_id => (sse_stream session_id w).2
  | GeneratorStart request session_id queue =>
      (event_generator_start request session_id queue w).2
  | GeneratorNext queue =>
      match event_generator_next queue w with
      | Some (_, w') => w'
      | None => w
      end
  | GeneratorClose session_id => (event_generator_finally session_id w).2
  | PostMessage request => (post_message request w).2
  end.

Definition run `{!UnicodeData} (history : list action) (w : world) : world :=
  foldl step w history.

End Sse.

(** ** python/streamable/app.py *)

Module Streamable.

Definition input_schema : value :=
  VDict [("type", VStr "object");
         ("properties",
          VDict [("input",
                  VDict [("type", VStr "string");
                         ("description",
                          VStr "The string to be converted to uppercase.")])]);
         ("required", VList [VStr "input"])].

Definition TOOLS : value :=
  VList [VDict [("name", VStr "to-uppercase");
                ("description", VStr "Converts the input string to uppercase.");
                ("inputSchema", input_schema)];
         VDict [("name", VStr "to-uppercase-slowly");
                ("description",
                 VStr "Converts the input string to uppercase. (simulates slow processing)");
                ("inputSchema", input_schema)]].

Definition format_sse (event data : str) : str :=
  "event: " ++ event ++ LF ++ "data: " ++ data ++ LF ++ LF.

(** [base_response(result=None, error=None, *, request_id=None)]. *)
Definition base_response (result error request_id : value) : value :=
  let response := [("jsonrpc", VStr "2.0"); ("id", request_id)] in
  if negb (is_none error) then VDict (dict_set response "error" error)
  else VDict (dict_set response "result" result).

Definition event_payload (progress_token : value) (i : Z) : value :=
  VDict [("jsonrpc", VStr "2.0");
         ("method", VStr "notifications/progress");
         ("params",
          VDict [("progress", VInt i);
                 ("total", VInt 10);
                 ("progressToken", progress_token);
                 ("message",
                  VStr ("Server progress " ++ int_repr (int_truediv (i * 100) 10) ++ "%"))])].

(** [slow_uppercase_stream]: nothing runs before the first chunk is asked
    for, so a failure while reading the progress token is a failure of the
    stream, not of the handler.  The pauses between the chunks are left out. *)
Definition slow_uppercase_stream `{!UnicodeData} (payload request_id : value)
    (input_value : str) : agen :=
  match
    params ← py_get payload "params" (VDict []);
    meta ← py_get params "_meta" (VDict []);
    py_get meta "progressToken" VNone
  with
  | Raise e => Raises e
  | Ok progress_token =>
      yield_all
        (map (λ i, format_sse "message" (json_dumps (event_payload progress_token i)))
             (py_range 1 11))
        (let result := text_result (str_upper input_value) in
         let final_response := base_response result VNone request_id in
         Yield (format_sse "message" (json_dumps final_response)) StopAsyncIteration)
  end.

Inductive Response :=
| JSONResponse (status_code : Z) (content : value)
| StreamingResponse (body : agen).

(** [JSONResponse(content=...)]: the content is rendered when the response
    is built, so a content that cannot be rendered is an exception of the
    handler.  A [StreamingResponse] renders nothing when it is built. *)
Definition new_JSONResponse (status_code : Z) (content : value) : res Response :=
  render content;;
  Ok (JSONResponse status_code content).

Definition initialize_result : value :=
  VDict [("protocolVersion", VStr "2025-03-26");
         ("serverInfo", VDict [("name", VStr "Python To-Uppercase Server");
                               ("version", VStr "1.0.0")]);
         ("capabilities", VDict [("tools", VDict [("listChanged", VBool true)])])].

(** [handle_mcp].  The status of a [JSONResponse] is left at its default,
    200. *)
Definition handle_mcp `{!UnicodeData} (request : Request) : res Response :=
  payload ← json_body request;
  method ← py_get payload "method" VNone;
  request_id ← py_get payload "id" VNone;
  if py_eq_str method "initialize" then
    let result := initialize_result in
    new_JSONResponse 200 (base_response result VNone request_id)
  else if py_eq_str method "tools/list" then
    new_JSONResponse 200 (base_response (VDict [("tools", TOOLS)]) VNone request_id)
  else if py_eq_str method "tools/call" then
    params ← py_get payload "params" (VDict []);
    tool_name ← py_get params "name" VNone;
    arguments ← py_get params "arguments" (VDict []);
    input ← py_get arguments "input" (VStr "");
    let input_value := py_str input in
    if py_eq_str tool_name "to-uppercase" then
      let result := text_result (str_upper input_value) in
      new_JSONResponse 200 (base_response result VNone request_id)
    else if py_eq_str tool_name "to-uppercase-slowly" then
      Ok (StreamingResponse (slow_uppercase_stream payload request_id input_value))
    else
      let error := VDict [("code", VInt (-32602));
                          ("message", VStr "Unsupported tool name")] in
      new_JSONResponse 200 (base_response VNone error request_id)
  else
    let error := VDict [("code", VInt (-32601)); ("message", VStr "Method not found")] in
    new_JSONResponse 200 (base_response VNone error request_id).

End Streamable.

(** * The vocabulary of the statements *)

(** ** Responses and streams *)

(** A response envelope carries [result] or [error], and not both. *)
Definition one_of_result_error (envelope : value) : Prop :=
  xorb (has_key envelope "result") (has_key envelope "error") = true.

(** The frames of the streamable transport for a list of JSON documents. *)
Definition sse_frames (payloads : list value) : list str :=
  map (λ p, Streamable.format_sse "message" (json_dumps p)) payloads.

(** What a client reads off the answer when the answer is a stream. *)
Definition stream_of (answer : res Streamable.Response) : option (list str * option exn) :=
  match answer with
  | Ok (Streamable.StreamingResponse g) => Some (drain g)
  | _ => None
  end.

(** The response to a POST on [/message], before it is framed: the body is
    decoded and dispatched. *)
Definition answer_of `{!UnicodeData} (request : Request) : res value :=
  payload ← json_body request;
  Sse.build_response payload.

(** C8, as the claim words it: the token of a notification is the value the
    caller supplied, and the key is missing when the caller supplied none. *)
Definition token_as_claimed (meta : dict) (notification : value) : Prop :=
  at_path [Key "params"; Key "progressToken"] notification =
    dict_lookup meta "progressToken".

(** ** Sessions *)

(** A session is open after a history when its stream was opened and has
    not been closed since. *)
Definition session_open_step (session_id : str) (open : bool) (a : Sse.action) : bool :=
  match a with
  | Sse.GetSse s => if str_eqb s session_id then true else open
  | Sse.GeneratorClose s => if str_eqb s session_id then false else open
  | _ => open
  end.

Definition session_open (session_id : str) (history : list Sse.action) : bool :=
  foldl (session_open_step session_id) false history.

Definition registered (w : Sse.world) (session_id : str) : bool :=
  bool_decide (is_Some (Sse.sessions w !! session_id)).




(** Every queue the registry names is on the heap. *)
Definition registry_wf (w : Sse.world) : Prop :=
  ∀ session_id queue,
    Sse.sessions w !! session_id = Some queue → queue ∈ dom (Sse.queues w).



(** ** Sample requests *)

Definition post_body (payload : value) : Request :=
  {| query_params := ∅; json_body := Ok payload; url_for_post_message := None |}.

Definition post_to (session_id : str) (payload : value) : Request :=
  {| query_params := {["sessionid" := session_id]};
     json_body := Ok payload;
     url_for_post_message := None |}.

(** A POST whose body is not JSON. *)
Definition post_garbage_to (session_id : str) : Request :=
  {| query_params := {["sessionid" := session_id]};
     json_body := Raise JSONDecodeError;
     url_for_post_message := None |}.

Definition get_sse : Request :=
  {| query_params := ∅;
     json_body := Raise JSONDecodeError;
     url_for_post_message := Some "http://localhost:8080/message" |}.

Definition abc_call : value :=
  VDict [("jsonrpc", VStr "2.0"); ("id", VInt 1); ("method", VStr "tools/call");
         ("params", VDict [("name", VStr "to-uppercase");
                           ("arguments", VDict [("input", VStr "abc")])])].

Definition number_call : value :=
  VDict [("jsonrpc", VStr "2.0"); ("id", VInt 4); ("method", VStr "tools/call");
         ("params", VDict [("name", VStr "to-uppercase");
                           ("arguments",
                            VDict [("input", VList [VInt 42; VNone; VBool true;
                                                    VStr "abc"; VFloat "2.5"])])])].

Definition unknown_tool_call : value :=
  VDict [("jsonrpc", VStr "2.0"); ("id", VInt 2); ("method", VStr "tools/call");
         ("params", VDict [("name", VStr "to-lowercase");
                           ("arguments", VDict [("input", VStr "ABC")])])].

Definition slow_call : value :=
  VDict [("jsonrpc", VStr "2.0"); ("id", VInt 7); ("method", VStr "tools/call");
         ("params", VDict [("name", VStr "to-uppercase-slowly");
                           ("arguments", VDict [("input", VStr "abc")]);
                           ("_meta", VDict [("progressToken", VStr "tok-1")])])].

Definition slow_call_without_token : value :=
  VDict [("jsonrpc", VStr "2.0"); ("id", VInt 8); ("method", VStr "tools/call");
         ("params", VDict [("name", VStr "to-uppercase-slowly");
                           ("arguments", VDict [("input", VStr "abc")])])].

Definition list_without_id : value :=
  VDict [("jsonrpc", VStr "2.0"); ("method", VStr "tools/list")].

Definition list_with_id : value :=
  VDict [("jsonrpc", VStr "2.0"); ("id", VStr "req-9"); ("method", VStr "tools/list")].

Definition unknown_method_call : value :=
  VDict [("jsonrpc", VStr "2.0"); ("id", VInt 3); ("method", VStr "resources/list")].

Definition initialized_notification : value :=
  VDict [("jsonrpc", VStr "2.0"); ("method", VStr "notifications/initialized")].

Definition open_history : list Sse.action := [Sse.GetSse "5f0c"; Sse.GetSse "a1b2"].

Definition closed_history : list Sse.action :=
  [Sse.GetSse "5f0c"; Sse.GetSse "a1b2"; Sse.GeneratorClose "5f0c"].

(** ** The handlers in finer steps *)

(** [post_message] on both sides of [await request.json()], the one place
    where the handler can be suspended: before it the guard and the lookup,
    after it the decoded body, the dispatch and the put on the queue that
    was looked up. *)
Definition post_message_lookup (request : Request) : Sse.handler Sse.loc :=
  let session_id := query_params request !! "sessionid" in
  if py_not session_id then
    Sse.raise (HTTPException 400 "sessionid must be provided for POST requests")
  else
    Sse.except_KeyError (Sse.get (default "" session_id))
      (HTTPException 404 "session not found; establish the SSE stream first").

Definition post_message_deliver `{!UnicodeData} (request : Request) (queue : Sse.loc)
    : Sse.handler Sse.Response :=
  payload ← Sse.lift (json_body request);
  response ← Sse.lift (Sse.build_response payload);
  Sse.Queue_put queue (Sse.format_sse "message" (json_dumps response));;
  Sse.lift (Sse.new_JSONResponse 202 (VDict [("status", VStr "accepted")])).

(** The first [n] chunks [event_generator] yields once it has started, or
    fewer when it comes to wait on an empty queue. *)
Fixpoint event_generator_take (n : nat) (queue : Sse.loc) (w : Sse.world)
    : list str * Sse.world :=
  match n with
  | O => ([], w)
  | S n' =>
      match Sse.event_generator_next queue w with
      | None => ([], w)
      | Some (data, w') =>
          let '(rest, w'') := event_generator_take n' queue w' in (data :: rest, w'')
      end
  end.

(** ** Shapes of requests *)



(** The requests [build_response] answers: a JSON object that, when its
    method is [tools/call], has an object (or nothing) for [params] and, when
    the tool is [to-uppercase], an object (or nothing) for [arguments] and a
    string (or nothing) for [input]. *)
Definition sse_request_ok (payload : value) : bool :=
  match payload with
  | VDict d =>
      if py_eq_str (dict_get d "method" VNone) "initialize" then true
      else if py_eq_str (dict_get d "method" VNone) "tools/list" then true
      else if py_eq_str (dict_get d "method" VNone) "tools/call" then
        match dict_get d "params" (VDict []) with
        | VDict ps =>
            if py_eq_str (dict_get ps "name" VNone) "to-uppercase" then
              match dict_get ps "arguments" (VDict []) with
              | VDict args =>
                  match dict_get args "input" (VStr "") with
                  | VStr _ => true
                  | _ => false
                  end
              | _ => false
              end
            else true
        | _ => false
        end
      else true
  | _ => false
  end.



(** ** Lines *)

Definition newline_free (s : str) : bool :=
  negb (contains_char 10 s).

(** Every float of a document is printed on one line, as [repr] prints it. *)
Fixpoint floats_on_one_line (v : value) : bool :=
  match v with
  | VFloat r => newline_free r
  | VList l => forallb floats_on_one_line l
  | VDict d => forallb (λ kv, floats_on_one_line kv.2) d
  | _ => true
  end.

(** ** More sample requests *)

Definition slow_call_bad_meta : value :=
  VDict [("jsonrpc", VStr "2.0"); ("id", VInt 9); ("method", VStr "tools/call");
         ("params", VDict [("name", VStr "to-uppercase-slowly");
                           ("arguments", VDict [("input", VStr "abc")]);
                           ("_meta", VStr "tok-1")])].

Definition initialize_call : value :=
  VDict [("jsonrpc", VStr "2.0"); ("id", VInt 5); ("method", VStr "initialize");
         ("params", VNone)].

Definition started_history : list Sse.action :=
  [Sse.GetSse "5f0c"; Sse.GetSse "a1b2"; Sse.GeneratorStart get_sse "a1b2" 2%positive].

Definition started_world `{!UnicodeData} : Sse.world :=
  Sse.run started_history Sse.initial_world.

Definition abc_call_bare : value :=
  VDict [("trace", VBool true); ("id", VInt 1); ("jsonrpc", VStr "1.0");
         ("params", VDict [("name", VStr "to-uppercase");
                           ("arguments", VDict [("input", VStr "abc")])]);
         ("method", VStr "tools/call")].

(** Requests on which the claims fail.  An id that is [NaN], which
    [json.loads] accepts: *)
Definition abc_call_nan_id : value :=
  VDict [("jsonrpc", VStr "2.0"); ("id", VFloat "nan"); ("method", VStr "tools/call");
         ("params", VDict [("name", VStr "to-uppercase");
                           ("arguments", VDict [("input", VStr "abc")])])].

(** a number as input, and an id that is [1e400], which reads as infinity: *)
Definition number_call_inf_id : value :=
  VDict [("jsonrpc", VStr "2.0"); ("id", VFloat "inf"); ("method", VStr "tools/call");
         ("params", VDict [("name", VStr "to-uppercase");
                           ("arguments", VDict [("input", VInt 42)])])].

(** an id with the lone surrogate [\ud800]: *)
Definition abc_call_surrogate_id : value :=
  VDict [("jsonrpc", VStr "2.0"); ("id", VStr [55296%N]); ("method", VStr "tools/call");
         ("params", VDict [("name", VStr "to-uppercase");
                           ("arguments", VDict [("input", VStr "abc")])])].

(** an unknown tool with arguments that are not an object: *)
Definition unknown_tool_call_bad_arguments : value :=
  VDict [("jsonrpc", VStr "2.0"); ("id", VInt 2); ("method", VStr "tools/call");
         ("params", VDict [("name", VStr "to-lowercase"); ("arguments", VStr "x")])].

(** the slow tool with a [_meta] that is null: *)
Definition slow_call_null_meta : value :=
  VDict [("jsonrpc", VStr "2.0"); ("id", VInt 7); ("method", VStr "tools/call");
         ("params", VDict [("name", VStr "to-uppercase-slowly");
                           ("arguments", VDict [("input", VStr "abc")]);
                           ("_meta", VNone)])].

(** The slow tool's name on the session-registry transport, which does not
    have this tool. *)
Definition slow_call_on_sse : value :=
  VDict [("jsonrpc", VStr "2.0"); ("id", VInt 6); ("method", VStr "tools/call");
         ("params", VDict [("name", VStr "to-uppercase-slowly");
                           ("arguments", VStr "x")])].

(** Text outside ASCII: [straße], [é] in a list. *)
Definition strasse : str := [115; 116; 114; 97; 223; 101]%N.

Definition strasse_call : value :=
  VDict [("jsonrpc", VStr "2.0"); ("id", VInt 1); ("method", VStr "tools/call");
         ("params", VDict [("name", VStr "to-uppercase");
                           ("arguments", VDict [("input", VStr strasse)])])].

Definition e_acute_list_call : value :=
  VDict [("jsonrpc", VStr "2.0"); ("id", VInt 1); ("method", VStr "tools/call");
         ("params", VDict [("name", VStr "to-uppercase");
                           ("arguments", VDict [("input", VList [VStr [233%N]])])])].

(** ** A sample of the character database

    The rows of the database for U+0080 to U+00FF: [µ] and [ÿ] have their
    capitals outside the range, [ß] becomes [SS], the letters from [à] to
    [þ] move down by 32, the rest is unchanged; the printable ones are those
    from U+00A1 on, the soft hyphen apart.  Beyond U+00FF the rows of this
    sample are placeholders, unchanged by [upper] and not printable, which
    is what the database says of the surrogates.  The sample serves to
    evaluate the functions on the sample requests, whose text is in these
    ranges; no theorem is about it. *)
Definition latin1_to_upper_full (c : N) : str :=
  if (c =? 181)%N then [924%N]
  else if (c =? 223)%N then "SS"
  else if (c =? 255)%N then [376%N]
  else if ((224 <=? c) && (c <=? 254) && negb (c =? 247))%N then [(c - 32)%N]
  else [c].

Definition latin1_is_printable (c : N) : bool :=
  ((161 <=? c) && (c <=? 255) && negb (c =? 173))%N.

Definition latin1 : UnicodeData :=
  {| to_upper_full := latin1_to_upper_full; is_printable := latin1_is_printable |}.

(** * Theorems *)

Section Theorems.

Context {unicode : UnicodeData}.

#[local] Arguments Streamable.base_response : simpl never.
#[local] Arguments Streamable.slow_uppercase_stream : simpl never.
#[local] Arguments Streamable.new_JSONResponse : simpl never.
#[local] Arguments text_result : simpl never.

Ltac py_run :=
  repeat (cbn;
          match goal with
          | H : dict_get ?d ?k ?v = _ |- context [dict_get ?d ?k ?v] => rewrite H
          | H : py_eq_str ?o ?l = _ |- context [py_eq_str ?o ?l] => rewrite H
          end);
  cbn.

(** ** Text *)

Lemma str_eqb_spec (a b : str) : reflect (a = b) (str_eqb a b).
Proof.
  revert b. induction a as [|x a IH]; intros [|y b]; cbn; try by constructor.
  destruct (N.eqb_spec x y) as [->|Hne]; cbn.
  - destruct (IH b) as [->|Hne]; constructor; congruence.
  - constructor. congruence.
Qed.


(** ** Rendering *)

(** The two ways in which the content of a [JSONResponse] fails to render,
    and the response otherwise. *)
Lemma new_JSONResponse_eq (status_code : Z) (content : value) :
  Streamable.new_JSONResponse status_code content =
    if negb (floats_in_range content) then Raise ValueError
    else if negb (utf8_encodable content) then Raise UnicodeEncodeError
    else Ok (Streamable.JSONResponse status_code content).
Proof.
  unfold Streamable.new_JSONResponse, render.
  by destruct (floats_in_range content), (utf8_encodable content).
Qed.

Lemma new_JSONResponse_Ok (status_code : Z) (content : value) (response : Streamable.Response) :
  Streamable.new_JSONResponse status_code content = Ok response →
  response = Streamable.JSONResponse status_code content ∧
  floats_in_range content = true ∧ utf8_encodable content = true.
Proof.
  rewrite new_JSONResponse_eq.
  destruct (floats_in_range content), (utf8_encodable content); cbn; try discriminate.
  by intros [= <-].
Qed.


(** The envelope of a result or of an error renders when its id does; the
    text of a tool's result must be free of surrogates as well. *)
Lemma base_response_floats (result error request_id : value) :
  floats_in_range result = true →
  floats_in_range error = true →
  floats_in_range (Streamable.base_response result error request_id) =
    floats_in_range request_id.
Proof.
  intros Hresult Herror. unfold Streamable.base_response.
  destruct (is_none error); cbn; rewrite ?Hresult, ?Herror; apply andb_true_r.
Qed.

Lemma base_response_encodable (result error request_id : value) :
  utf8_encodable (Streamable.base_response result error request_id) =
    utf8_encodable request_id
    && utf8_encodable (if is_none error then result else error).
Proof.
  unfold Streamable.base_response.
  destruct (is_none error); cbn; by rewrite andb_true_r.
Qed.

Lemma text_result_floats (text : str) : floats_in_range (text_result text) = true.
Proof. reflexivity. Qed.

Lemma text_result_encodable (text : str) :
  utf8_encodable (text_result text) = encodable text.
Proof. unfold text_result. cbn. by rewrite !andb_true_r. Qed.

(** ** The dispatchers *)

Lemma drain_yield_all (chunks : list str) (rest : agen) :
  drain (yield_all chunks rest) = ((chunks ++ (drain rest).1)%list, (drain rest).2).
Proof.
  induction chunks as [|c cs IH]; cbn.
  - by destruct (drain rest).
  - rewrite IH. reflexivity.
Qed.

(** The chunks of a stream that ends normally: ten progress frames for one
    token, then the frame of the final response. *)
Lemma slow_uppercase_stream_drain (payload request_id : value) (input_value : str)
    (frames : list str) :
  drain (Streamable.slow_uppercase_stream payload request_id input_value) = (frames, None) →
  ∃ progress_token,
    frames =
      (map (λ i, Streamable.format_sse "message"
                   (json_dumps (Streamable.event_payload progress_token i)))
           [1; 2; 3; 4; 5; 6; 7; 8; 9; 10]
       ++ [Streamable.format_sse "message"
             (json_dumps (Streamable.base_response
                            (text_result (str_upper input_value)) VNone request_id))])%list.
Proof.
  unfold Streamable.slow_uppercase_stream.
  destruct (_ ≫= _) as [progress_token|e]; [|discriminate].
  rewrite drain_yield_all. cbn. intros [= <-]. by exists progress_token.
Qed.

Lemma base_response_id (result error request_id : value) :
  field "id" (Streamable.base_response result error request_id) = Some request_id.
Proof. unfold Streamable.base_response. by destruct (is_none error). Qed.

Lemma base_response_one_of (result error request_id : value) :
  one_of_result_error (Streamable.base_response result error request_id).
Proof. unfold Streamable.base_response. by destruct (is_none error). Qed.

(** What [handle_mcp] answers, by the shape of the answer. *)
Lemma handle_mcp_json (request : Request) (status_code : Z) (content : value) :
  Streamable.handle_mcp request = Ok (Streamable.JSONResponse status_code content) →
  ∃ d result error,
    json_body request = Ok (VDict d) ∧
    content = Streamable.base_response result error (dict_get d "id" VNone).
Proof.
  unfold Streamable.handle_mcp.
  destruct (json_body request) as [[| | | | |?|d]|]; try discriminate. cbn.
  repeat (match goal with
          | |- context [if ?b then _ else _] => destruct b
          | |- context [py_get ?o ?k ?v] => destruct (py_get o k v); cbn
          end; try discriminate);
    intros [[= -> ->] _]%new_JSONResponse_Ok; eauto.
Qed.

Lemma handle_mcp_stream (request : Request) (g : agen) :
  Streamable.handle_mcp request = Ok (Streamable.StreamingResponse g) →
  ∃ d input_value,
    json_body request = Ok (VDict d) ∧
    g = Streamable.slow_uppercase_stream (VDict d) (dict_get d "id" VNone) input_value.
Proof.
  unfold Streamable.handle_mcp.
  destruct (json_body request) as [[| | | | |?|d]|]; try discriminate. cbn.
  repeat (match goal with
          | |- context [if ?b then _ else _] => destruct b
          | |- context [py_get ?o ?k ?v] => destruct (py_get o k v); cbn
          end; try discriminate);
    try (by intros [[=] _]%new_JSONResponse_Ok);
    intros [= <-]; eauto.
Qed.

Lemma build_response_shape (d : dict) (response : value) :
  Sse.build_response (VDict d) = Ok response →
  ∃ body,
    response = VDict [("jsonrpc", VStr "2.0"); ("id", dict_get d "id" VNone); body] ∧
    (body.1 = "result" ∨ body.1 = "error").
Proof.
  unfold Sse.build_response, Sse.perform_to_uppercase, Sse.method_not_found. cbn.
  repeat (match goal with
          | |- context [if ?b then _ else _] => destruct b
          | |- context [py_get ?o ?k ?v] => destruct (py_get o k v); cbn
          | |- context [py_upper ?o] => destruct (py_upper o); cbn
          end; try discriminate);
    intros [= <-]; eexists; (split; [reflexivity|]); cbn; auto.
Qed.

(** A request that is not a JSON object reaches neither dispatcher's
    branches: reading [method] off it already fails. *)
Lemma dispatch_needs_object (request : Request) (payload : value) :
  json_body request = Ok payload →
  (∀ d, payload ≠ VDict d) →
  Sse.build_response payload = Raise AttributeError ∧
  Streamable.handle_mcp request = Raise AttributeError.
Proof.
  intros Hbody Hd. unfold Sse.build_response, Streamable.handle_mcp. rewrite Hbody.
  destruct payload; try done. by destruct (Hd entries).
Qed.


(** C2, amended: a synchronous [tools/call] of the [to-uppercase] tool with
    a string as input is answered, on both transports, with the request's id
    and the result
    [{"content": [{"type": "text", "text": input.upper()}], "isError": false}];
    the input [abc] gives the text [ABC], and a missing [input] counts as
    the empty string.  The session-registry dispatcher returns this
    response.  The streamable handler builds a [JSONResponse] of it, with
    status 200, which is returned when it renders and raises otherwise:
    [ValueError] when the id holds a float that is [nan] or infinite,
    [UnicodeEncodeError] when the id or the text holds a surrogate. *)
Theorem to_uppercase_call_result (request : Request) (d ps args : dict) (s : str) :
  json_body request = Ok (VDict d) →
  dict_get d "method" VNone = VStr "tools/call" →
  dict_get d "params" (VDict []) = VDict ps →
  dict_get ps "name" VNone = VStr "to-uppercase" →
  dict_get ps "arguments" (VDict []) = VDict args →
  dict_get args "input" (VStr "") = VStr s →
  let request_id := dict_get d "id" VNone in
  let result :=
    VDict [("content", VList [VDict [("type", VStr "text"); ("text", VStr (str_upper s))]]);
           ("isError", VBool false)] in
  let response :=
    VDict [("jsonrpc", VStr "2.0"); ("id", request_id); ("result", result)] in
  Sse.build_response (VDict d) = Ok response ∧
  Streamable.handle_mcp request = Streamable.new_JSONResponse 200 response ∧
  Streamable.handle_mcp request =
    (if negb (floats_in_range request_id) then Raise ValueError
     else if negb (utf8_encodable request_id && encodable (str_upper s))
          then Raise UnicodeEncodeError
          else Ok (Streamable.JSONResponse 200 response)) ∧
  (s = "abc" → str_upper s = "ABC") ∧
  (dict_lookup args "input" = None → s = "" ∧ str_upper s = "").
Proof.
  intros Hbody Hmethod Hparams Hname Hargs Hinput request_id result response.
  assert (Hmcp : Streamable.handle_mcp request = Streamable.new_JSONResponse 200 response).
  { unfold Streamable.handle_mcp. rewrite Hbody. by py_run. }
  split; [|split; [|split; [|split]]].
  - unfold Sse.build_response. by py_run.
  - exact Hmcp.
  - rewrite Hmcp, new_JSONResponse_eq. unfold response, result. cbn.
    by rewrite !andb_true_r.
  - by intros ->.
  - intros Hnone. unfold dict_get in Hinput. rewrite Hnone in Hinput.
    by injection Hinput as <-.
Qed.

(** The streamable handler evaluates [arguments.get] whatever the tool name
    is: arguments that are not an object make it raise. *)
Lemma handle_mcp_arguments_not_object (request : Request) (d ps : dict) (arguments : value) :
  json_body request = Ok (VDict d) →
  dict_get d "method" VNone = VStr "tools/call" →
  dict_get d "params" (VDict []) = VDict ps →
  dict_get ps "arguments" (VDict []) = arguments →
  (∀ args, arguments ≠ VDict args) →
  Streamable.handle_mcp request = Raise AttributeError.
Proof.
  intros Hbody Hmethod Hparams Hargs Hshape.
  unfold Streamable.handle_mcp. rewrite Hbody. py_run.
  destruct arguments; try done. by destruct (Hshape entries).
Qed.

(** C4, amended: a [tools/call] whose tool name is not a tool of the
    transport.  The session-registry dispatcher, which has the one tool
    [to-uppercase], falls through to the error [-32601], Method not found,
    and does not raise; it does not read the arguments.  The streamable
    handler reads [arguments] before it looks at the name: when they are an
    object or left out it builds a [JSONResponse] of the error [-32602],
    Unsupported tool name, which is returned when the id renders and raises
    [ValueError] or [UnicodeEncodeError] otherwise; when they are anything
    else it raises [AttributeError]. *)
Theorem unknown_tool_is_an_error (request : Request) (d ps : dict) :
  json_body request = Ok (VDict d) →
  dict_get d "method" VNone = VStr "tools/call" →
  dict_get d "params" (VDict []) = VDict ps →
  let request_id := dict_get d "id" VNone in
  let error code message :=
    VDict [("jsonrpc", VStr "2.0"); ("id", request_id);
           ("error", VDict [("code", VInt code); ("message", VStr message)])] in
  (py_eq_str (dict_get ps "name" VNone) "to-uppercase" = false →
   Sse.build_response (VDict d) = Ok (error (-32601) "Method not found")) ∧
  (py_eq_str (dict_get ps "name" VNone) "to-uppercase" = false →
   py_eq_str (dict_get ps "name" VNone) "to-uppercase-slowly" = false →
   ∀ args, dict_get ps "arguments" (VDict []) = VDict args →
     Streamable.handle_mcp request =
       Streamable.new_JSONResponse 200 (error (-32602) "Unsupported tool name") ∧
     Streamable.handle_mcp request =
       (if negb (floats_in_range request_id) then Raise ValueError
        else if negb (utf8_encodable request_id) then Raise UnicodeEncodeError
        else Ok (Streamable.JSONResponse 200 (error (-32602) "Unsupported tool name")))) ∧
  (∀ arguments, dict_get ps "arguments" (VDict []) = arguments →
     (∀ args, arguments ≠ VDict args) →
     Streamable.handle_mcp request = Raise AttributeError).
Proof.
  intros Hbody Hmethod Hparams request_id error. split; [|split].
  - intros Hsync. unfold Sse.build_response. by py_run.
  - intros Hsync Hslow args Hargs.
    assert (Hmcp : Streamable.handle_mcp request =
              Streamable.new_JSONResponse 200 (error (-32602) "Unsupported tool name")).
    { unfold Streamable.handle_mcp. rewrite Hbody. by py_run. }
    split; [exact Hmcp|].
    rewrite Hmcp, new_JSONResponse_eq. unfold error. cbn.
    by rewrite !andb_true_r.
  - intros arguments Harguments Hshape.
    by apply (handle_mcp_arguments_not_object request d ps arguments).
Qed.

(** C5: the response to a request carries the request's id, [None] standing
    for an id that is null or left out: the response of the
    session-registry dispatcher, the JSON body of the streamable handler, and
    the last frame of a stream that the streamable handler returns. *)
Theorem response_echoes_request_id (request : Request) (d : dict) :
  json_body request = Ok (VDict d) →
  let request_id := dict_get d "id" VNone in
  (∀ response, Sse.build_response (VDict d) = Ok response →
     field "id" response = Some request_id) ∧
  (∀ status_code content,
     Streamable.handle_mcp request = Ok (Streamable.JSONResponse status_code content) →
     field "id" content = Some request_id) ∧
  (∀ g frames,
     Streamable.handle_mcp request = Ok (Streamable.StreamingResponse g) →
     drain g = (frames, None) →
     ∃ input_value,
       let final_response :=
         Streamable.base_response (text_result (str_upper input_value)) VNone request_id in
       last frames = Some (Streamable.format_sse "message" (json_dumps final_response)) ∧
       field "id" final_response = Some request_id).
Proof.
  intros Hbody request_id. split; [|split].
  - intros response (body & -> & _)%build_response_shape. reflexivity.
  - intros status_code content (d' & result & error & Hd' & ->)%handle_mcp_json.
    rewrite Hbody in Hd'. injection Hd' as <-. apply base_response_id.
  - intros g frames (d' & input_value & Hd' & ->)%handle_mcp_stream Hdrain.
    rewrite Hbody in Hd'. injection Hd' as <-.
    apply slow_uppercase_stream_drain in Hdrain as [progress_token ->].
    exists input_value. split; [|apply base_response_id].
    by rewrite last_snoc.
Qed.

(** C6: every response envelope a dispatcher produces holds exactly one of
    [result] and [error]: the response of the session-registry dispatcher,
    the JSON body of the streamable handler, the final response of a stream,
    and whatever [base_response] builds. *)
Theorem envelope_has_result_xor_error (request : Request) (d : dict) :
  json_body request = Ok (VDict d) →
  (∀ response, Sse.build_response (VDict d) = Ok response →
     one_of_result_error response) ∧
  (∀ status_code content,
     Streamable.handle_mcp request = Ok (Streamable.JSONResponse status_code content) →
     one_of_result_error content) ∧
  (∀ g frames,
     Streamable.handle_mcp request = Ok (Streamable.StreamingResponse g) →
     drain g = (frames, None) →
     ∃ input_value,
       let final_response :=
         Streamable.base_response (text_result (str_upper input_value)) VNone
           (dict_get d "id" VNone) in
       last frames = Some (Streamable.format_sse "message" (json_dumps final_response)) ∧
       one_of_result_error final_response) ∧
  (∀ result error request_id,
     one_of_result_error (Streamable.base_response result error request_id)).
Proof.
  intros Hbody. split; [|split; [|split]].
  - intros response (body & -> & Hkey)%build_response_shape.
    destruct body as [key v]. cbn in Hkey. by destruct Hkey as [-> | ->].
  - intros status_code content (d' & result & error & _ & ->)%handle_mcp_json.
    apply base_response_one_of.
  - intros g frames (d' & input_value & Hd' & ->)%handle_mcp_stream Hdrain.
    rewrite Hbody in Hd'. injection Hd' as <-.
    apply slow_uppercase_stream_drain in Hdrain as [progress_token ->].
    exists input_value. split; [|apply base_response_one_of].
    by rewrite last_snoc.
  - apply base_response_one_of.
Qed.

(** ** The progressive tool *)

Lemma int_truediv_percent (i : Z) : int_truediv (i * 100) 10 = i * 10.
Proof.
  unfold int_truediv. replace (i * 100) with (i * 10 * 10) by lia.
  by apply Z.quot_mul.
Qed.

(** The stream of a well-formed call of the slow tool. *)
Lemma slow_call_stream (request : Request) (d ps args meta : dict) :
  json_body request = Ok (VDict d) →
  dict_get d "method" VNone = VStr "tools/call" →
  dict_get d "params" (VDict []) = VDict ps →
  dict_get ps "name" VNone = VStr "to-uppercase-slowly" →
  dict_get ps "arguments" (VDict []) = VDict args →
  dict_get ps "_meta" (VDict []) = VDict meta →
  stream_of (Streamable.handle_mcp request) =
    Some (sse_frames
            (map (Streamable.event_payload (dict_get meta "progressToken" VNone))
                 [1; 2; 3; 4; 5; 6; 7; 8; 9; 10]
             ++ [Streamable.base_response
                   (text_result (str_upper (py_str (dict_get args "input" (VStr "")))))
                   VNone (dict_get d "id" VNone)])%list,
          None).
Proof.
  intros Hbody Hmethod Hparams Hname Hargs Hmeta.
  unfold Streamable.handle_mcp. rewrite Hbody. py_run.
  unfold Streamable.slow_uppercase_stream. by py_run.
Qed.

(** A [_meta] that is not an object makes the generator raise before its
    first frame. *)
Lemma slow_stream_meta_not_object (payload request_id : value) (input_value : str)
    (ps : dict) (meta : value) :
  py_get payload "params" (VDict []) = Ok (VDict ps) →
  dict_get ps "_meta" (VDict []) = meta →
  (∀ m, meta ≠ VDict m) →
  drain (Streamable.slow_uppercase_stream payload request_id input_value) =
    ([], Some AttributeError).
Proof.
  intros Hparams Hmeta Hshape. unfold Streamable.slow_uppercase_stream.
  rewrite Hparams. cbn. rewrite Hmeta.
  destruct meta; try done. by destruct (Hshape entries).
Qed.

(** The stream of a call of the slow tool whose [_meta] is not an object. *)
Lemma slow_call_stream_bad_meta (request : Request) (d ps args : dict) (meta : value) :
  json_body request = Ok (VDict d) →
  dict_get d "method" VNone = VStr "tools/call" →
  dict_get d "params" (VDict []) = VDict ps →
  dict_get ps "name" VNone = VStr "to-uppercase-slowly" →
  dict_get ps "arguments" (VDict []) = VDict args →
  dict_get ps "_meta" (VDict []) = meta →
  (∀ m, meta ≠ VDict m) →
  stream_of (Streamable.handle_mcp request) = Some ([], Some AttributeError).
Proof.
  intros Hbody Hmethod Hparams Hname Hargs Hmeta Hshape.
  unfold Streamable.handle_mcp. rewrite Hbody. py_run. f_equal.
  apply (slow_stream_meta_not_object _ _ _ ps meta); [|done..].
  cbn. by rewrite Hparams.
Qed.

(** C1, amended: a call of the slow tool whose [arguments] and [_meta] are
    objects or left out is answered with a stream of eleven frames: ten
    progress notifications, numbered 1 to 10 in this order, each with total
    10 and the message [Server progress N%] for N ten times the number, then
    the response whose first content item is the uppercase of [str] of the
    input, which is the input when it is a string; the stream ends after
    it. *)
Theorem slow_tool_stream (request : Request) (d ps args meta : dict) :
  json_body request = Ok (VDict d) →
  dict_get d "method" VNone = VStr "tools/call" →
  dict_get d "params" (VDict []) = VDict ps →
  dict_get ps "name" VNone = VStr "to-uppercase-slowly" →
  dict_get ps "arguments" (VDict []) = VDict args →
  dict_get ps "_meta" (VDict []) = VDict meta →
  let input_value := py_str (dict_get args "input" (VStr "")) in
  let progress := Streamable.event_payload (dict_get meta "progressToken" VNone) in
  let final_response :=
    Streamable.base_response (text_result (str_upper input_value)) VNone
      (dict_get d "id" VNone) in
  stream_of (Streamable.handle_mcp request) =
    Some (sse_frames (map progress [1; 2; 3; 4; 5; 6; 7; 8; 9; 10] ++ [final_response])%list,
          None) ∧
  (∀ i, at_path [Key "params"; Key "progress"] (progress i) = Some (VInt i) ∧
        at_path [Key "params"; Key "total"] (progress i) = Some (VInt 10) ∧
        at_path [Key "params"; Key "message"] (progress i) =
          Some (VStr ("Server progress " ++ int_repr (i * 10) ++ "%"))) ∧
  at_path [Key "result"; Key "content"; Index 0; Key "text"] final_response =
    Some (VStr (str_upper input_value)) ∧
  (∀ s, dict_get args "input" (VStr "") = VStr s → input_value = s).
Proof.
  intros Hbody Hmethod Hparams Hname Hargs Hmeta input_value progress final_response.
  split; [|split; [|split]].
  - by apply (slow_call_stream request d ps args meta).
  - intros i. cbn. by rewrite int_truediv_percent.
  - reflexivity.
  - intros s Hs. unfold input_value. by rewrite Hs.
Qed.

(** C8, amended: every progress notification of a call of the slow tool has
    the method [notifications/progress] and no [id], and always has the key
    [progressToken]: with the value the caller supplied in
    [params._meta.progressToken], and with null when the caller supplied
    none. *)
Theorem progress_notification_shape (request : Request) (d ps args meta : dict) :
  json_body request = Ok (VDict d) →
  dict_get d "method" VNone = VStr "tools/call" →
  dict_get d "params" (VDict []) = VDict ps →
  dict_get ps "name" VNone = VStr "to-uppercase-slowly" →
  dict_get ps "arguments" (VDict []) = VDict args →
  dict_get ps "_meta" (VDict []) = VDict meta →
  let notification := Streamable.event_payload (dict_get meta "progressToken" VNone) in
  let final_response :=
    Streamable.base_response
      (text_result (str_upper (py_str (dict_get args "input" (VStr "")))))
      VNone (dict_get d "id" VNone) in
  stream_of (Streamable.handle_mcp request) =
    Some (sse_frames (map notification [1; 2; 3; 4; 5; 6; 7; 8; 9; 10]
                      ++ [final_response])%list,
          None) ∧
  ∀ i,
    field "method" (notification i) = Some (VStr "notifications/progress") ∧
    field "id" (notification i) = None ∧
    has_key (notification i) "params" = true ∧
    (∀ token, dict_lookup meta "progressToken" = Some token →
       at_path [Key "params"; Key "progressToken"] (notification i) = Some token) ∧
    (dict_lookup meta "progressToken" = None →
       at_path [Key "params"; Key "progressToken"] (notification i) = Some VNone).
Proof.
  intros Hbody Hmethod Hparams Hname Hargs Hmeta notification final_response.
  split; [by apply (slow_call_stream request d ps args meta)|].
  intros i. unfold notification, dict_get. cbn. repeat split.
  - by intros token ->.
  - by intros ->.
Qed.

(** C9, amended: on the streamable transport the type of [input] never
    makes a call of a tool fail.  With [params] and [arguments] objects or
    left out, whatever value the argument has, and also when it is left out,
    the text is the uppercase of [str] of it, in a normal result and not an
    error.  For [to-uppercase] the handler builds a [JSONResponse] of this
    response, which is returned when it renders and raises otherwise:
    [ValueError] on an id with a float that is [nan] or infinite,
    [UnicodeEncodeError] on a surrogate in the id or the text.  For
    [to-uppercase-slowly] the response ends the stream when [_meta] is an
    object or left out, and the stream raises [AttributeError] before its
    first frame when [_meta] is anything else. *)
Theorem input_is_coerced_by_str (request : Request) (d ps args : dict) :
  json_body request = Ok (VDict d) →
  dict_get d "method" VNone = VStr "tools/call" →
  dict_get d "params" (VDict []) = VDict ps →
  dict_get ps "arguments" (VDict []) = VDict args →
  let input := dict_get args "input" (VStr "") in
  let request_id := dict_get d "id" VNone in
  let response :=
    Streamable.base_response (text_result (str_upper (py_str input))) VNone request_id in
  (dict_get ps "name" VNone = VStr "to-uppercase" →
     Streamable.handle_mcp request = Streamable.new_JSONResponse 200 response ∧
     Streamable.handle_mcp request =
       (if negb (floats_in_range request_id) then Raise ValueError
        else if negb (utf8_encodable request_id && encodable (str_upper (py_str input)))
             then Raise UnicodeEncodeError
             else Ok (Streamable.JSONResponse 200 response))) ∧
  (dict_get ps "name" VNone = VStr "to-uppercase-slowly" →
     (∀ meta, dict_get ps "_meta" (VDict []) = VDict meta →
        stream_of (Streamable.handle_mcp request) =
          Some (sse_frames
                  (map (Streamable.event_payload (dict_get meta "progressToken" VNone))
                       [1; 2; 3; 4; 5; 6; 7; 8; 9; 10]
                   ++ [response])%list,
                None)) ∧
     (∀ meta, dict_get ps "_meta" (VDict []) = meta →
        (∀ m, meta ≠ VDict m) →
        stream_of (Streamable.handle_mcp request) = Some ([], Some AttributeError))) ∧
  at_path [Key "result"; Key "content"; Index 0; Key "text"] response =
    Some (VStr (str_upper (py_str input))) ∧
  at_path [Key "result"; Key "isError"] response = Some (VBool false) ∧
  has_key response "error" = false ∧
  (dict_lookup args "input" = None → py_str input = "").
Proof.
  intros Hbody Hmethod Hparams Hargs input request_id response.
  split; [|split; [|repeat split]].
  - intros Hname.
    assert (Hmcp : Streamable.handle_mcp request = Streamable.new_JSONResponse 200 response).
    { unfold Streamable.handle_mcp. rewrite Hbody. by py_run. }
    split; [exact Hmcp|].
    rewrite Hmcp, new_JSONResponse_eq. unfold response.
    rewrite base_response_floats, base_response_encodable by done. cbn [is_none].
    by rewrite text_result_encodable.
  - intros Hname. split.
    + intros meta Hmeta. by apply (slow_call_stream request d ps args meta).
    + intros meta Hmeta Hshape.
      by apply (slow_call_stream_bad_meta request d ps args meta).
  - intros Hnone. unfold input, dict_get. by rewrite Hnone.
Qed.
(** ** The session registry *)

Lemma sse_stream_eq (session_id : str) (w : Sse.world) :
  Sse.sse_stream session_id w =
    (Ok (fresh (dom (Sse.queues w))),
     {| Sse.sessions := <[session_id := fresh (dom (Sse.queues w))]> (Sse.sessions w);
        Sse.queues := <[fresh (dom (Sse.queues w)) := []]> (Sse.queues w) |}).
Proof. reflexivity. Qed.

Lemma post_message_effect (request : Request) (w : Sse.world) :
  (Sse.post_message request w).2 = w ∨
  ∃ session_id queue data,
    query_params request !! "sessionid" = Some session_id ∧
    Sse.sessions w !! session_id = Some queue ∧
    (Sse.post_message request w).2 = (Sse.Queue_put queue data w).2.
Proof.
  unfold Sse.post_message.
  destruct (query_params request !! "sessionid") as [session_id|]; cbn; [|by left].
  destruct (str_eqb session_id ""); cbn; [by left|].
  unfold mbind, Sse.handler_bind, Sse.except_KeyError, Sse.get, Sse.lift.
  destruct (Sse.sessions w !! session_id) as [queue|] eqn:Hqueue; cbn; [|by left].
  destruct (json_body request) as [payload|e]; cbn; [|by left].
  destruct (Sse.build_response _) as [response|e]; cbn; [|by left].
  right. by eexists session_id, queue, _.
Qed.

Lemma post_message_sessions (request : Request) (w : Sse.world) :
  Sse.sessions (Sse.post_message request w).2 = Sse.sessions w.
Proof.
  destruct (post_message_effect request w) as [-> | (? & ? & ? & _ & _ & ->)]; done.
Qed.

Lemma registered_step (session_id : str) (w : Sse.world) (a : Sse.action) :
  registered (Sse.step w a) session_id =
    session_open_step session_id (registered w session_id) a.
Proof.
  unfold registered. destruct a as [s|r s q|q|s|r]; cbn.
  - rewrite sse_stream_eq. cbn.
    destruct (str_eqb_spec s session_id) as [->|Hne].
    + by rewrite lookup_insert_eq.
    + by rewrite lookup_insert_ne.
  - reflexivity.
  - unfold Sse.event_generator_next, Sse.Queue_get.
    by destruct (Sse.queue_items w q).
  - destruct (str_eqb_spec s session_id) as [->|Hne].
    + rewrite lookup_delete_eq. apply bool_decide_eq_false. by intros [? [=]].
    + by rewrite lookup_delete_ne.
  - by rewrite post_message_sessions.
Qed.

Lemma registered_run (session_id : str) (history : list Sse.action) (w : Sse.world) :
  registered (Sse.run history w) session_id =
    foldl (session_open_step session_id) (registered w session_id) history.
Proof.
  revert w. induction history as [|a history IH]; intros w; [done|].
  cbn. unfold Sse.run in IH. by rewrite IH, registered_step.
Qed.

(** The registry holds exactly the sessions that are open. *)
Lemma session_open_lookup (session_id : str) (history : list Sse.action) :
  session_open session_id history = false ↔
  Sse.sessions (Sse.run history Sse.initial_world) !! session_id = None.
Proof.
  unfold session_open.
  pose proof (registered_run session_id history Sse.initial_world) as Hrun.
  replace (registered Sse.initial_world session_id) with false in Hrun by done.
  rewrite <- Hrun. unfold registered.
  rewrite bool_decide_eq_false, <- eq_None_not_Some. done.
Qed.

Lemma post_message_not_registered (request : Request) (session_id : str) (w : Sse.world) :
  query_params request !! "sessionid" = Some session_id →
  session_id ≠ "" →
  Sse.sessions w !! session_id = None →
  Sse.post_message request w =
    (Raise (HTTPException 404 "session not found; establish the SSE stream first"), w).
Proof.
  intros Hquery Hid Hnone. unfold Sse.post_message. rewrite Hquery. cbn.
  destruct (str_eqb_spec session_id "") as [->|_]; [done|].
  unfold mbind, Sse.handler_bind, Sse.except_KeyError, Sse.get. cbn.
  by rewrite Hnone.
Qed.

(** C3: a POST to [/message] that names a session which is not open, one
    that was never opened or whose stream has ended, is answered 404 and
    leaves the registry and every queue as they were. *)
Theorem post_to_unknown_session (history : list Sse.action) (request : Request)
    (session_id : str) :
  query_params request !! "sessionid" = Some session_id →
  session_id ≠ "" →
  session_open session_id history = false →
  let w := Sse.run history Sse.initial_world in
  Sse.post_message request w =
    (Raise (HTTPException 404 "session not found; establish the SSE stream first"), w).
Proof.
  intros Hquery Hid Hclosed w.
  apply (post_message_not_registered request session_id); [done..|].
  by apply session_open_lookup.
Qed.

(** An empty [sessionid] counts as a missing one: the answer is 400, and the
    world is as it was. *)
Lemma post_without_session_id (request : Request) (w : Sse.world) :
  py_not (query_params request !! "sessionid") = true →
  Sse.post_message request w =
    (Raise (HTTPException 400 "sessionid must be provided for POST requests"), w).
Proof. intros Hnot. unfold Sse.post_message. by rewrite Hnot. Qed.

Lemma post_message_registered (request : Request) (session_id : str) (queue : Sse.loc)
    (response : value) (w : Sse.world) :
  query_params request !! "sessionid" = Some session_id →
  session_id ≠ "" →
  Sse.sessions w !! session_id = Some queue →
  answer_of request = Ok response →
  Sse.post_message request w =
    (Ok (Sse.JSONResponse 202 (VDict [("status", VStr "accepted")])),
     {| Sse.sessions := Sse.sessions w;
        Sse.queues :=
          <[queue := (Sse.queue_items w queue
                      ++ [Sse.format_sse "message" (json_dumps response)])%list]>
            (Sse.queues w) |}).
Proof.
  intros Hquery Hid Hqueue Hresponse. unfold Sse.post_message. rewrite Hquery. cbn.
  destruct (str_eqb_spec session_id "") as [->|_]; [done|].
  unfold answer_of in Hresponse.
  unfold mbind, Sse.handler_bind, Sse.except_KeyError, Sse.get, Sse.lift. cbn.
  rewrite Hqueue. destruct (json_body request) as [payload|]; [|done].
  cbn in Hresponse. by rewrite Hresponse.
Qed.

(** C10: a request without an [id] is dispatched like any other: its
    response, with the id null, is framed and appended to the queue of the
    session, and the POST is accepted.  Such a response exists at least for
    every method other than [tools/call]. *)
Theorem notification_is_answered (request : Request) (session_id : str)
    (queue : Sse.loc) (d : dict) (w : Sse.world) :
  query_params request !! "sessionid" = Some session_id →
  session_id ≠ "" →
  Sse.sessions w !! session_id = Some queue →
  json_body request = Ok (VDict d) →
  dict_lookup d "id" = None →
  (∀ response, Sse.build_response (VDict d) = Ok response →
     field "id" response = Some VNone ∧
     Sse.post_message request w =
       (Ok (Sse.JSONResponse 202 (VDict [("status", VStr "accepted")])),
        {| Sse.sessions := Sse.sessions w;
           Sse.queues :=
             <[queue := (Sse.queue_items w queue
                         ++ [Sse.format_sse "message" (json_dumps response)])%list]>
               (Sse.queues w) |})) ∧
  (py_eq_str (dict_get d "method" VNone) "tools/call" = false →
   ∃ response, Sse.build_response (VDict d) = Ok response).
Proof.
  intros Hquery Hid Hqueue Hbody Hnoid. split.
  - intros response Hresponse. split.
    + destruct (build_response_shape d response Hresponse) as (body & -> & _).
      cbn. unfold dict_get. by rewrite Hnoid.
    + apply (post_message_registered request session_id); [done..|].
      unfold answer_of. by rewrite Hbody.
  - intros Hmethod. unfold Sse.build_response. cbn.
    destruct (py_eq_str _ "initialize"); [by eexists|].
    destruct (py_eq_str _ "tools/list"); [by eexists|].
    rewrite Hmethod. by eexists.
Qed.

(** ** The endpoint event *)

Lemma step_queues_dom (w : Sse.world) (a : Sse.action) :
  dom (Sse.queues w) ⊆ dom (Sse.queues (Sse.step w a)).
Proof.
  destruct a as [s|r s q|q|s|r]; cbn.
  - rewrite sse_stream_eq. cbn. set_solver.
  - set_solver.
  - unfold Sse.event_generator_next, Sse.Queue_get.
    destruct (Sse.queue_items w q); cbn; set_solver.
  - done.
  - destruct (post_message_effect r w) as [-> | (? & ? & ? & _ & _ & ->)]; [done|].
    cbn. set_solver.
Qed.

Lemma registry_wf_step (w : Sse.world) (a : Sse.action) :
  registry_wf w → registry_wf (Sse.step w a).
Proof.
  intros Hwf session_id queue Hlookup.
  destruct (decide (queue ∈ dom (Sse.queues w))) as [Hin|Hnotin].
  { by apply (step_queues_dom w a). }
  destruct a as [s|r s q|q|s|r]; cbn in *.
  - rewrite sse_stream_eq in *. cbn in *.
    destruct (decide (s = session_id)) as [->|Hne].
    + rewrite lookup_insert_eq in Hlookup. injection Hlookup as <-. set_solver.
    + rewrite lookup_insert_ne in Hlookup by done. by destruct Hnotin; eapply Hwf.
  - by destruct Hnotin; eapply Hwf.
  - unfold Sse.event_generator_next, Sse.Queue_get in *.
    destruct (Sse.queue_items w q); by destruct Hnotin; eapply Hwf.
  - apply lookup_delete_Some in Hlookup as [_ Hlookup]. by destruct Hnotin; eapply Hwf.
  - rewrite post_message_sessions in Hlookup. by destruct Hnotin; eapply Hwf.
Qed.

Lemma registry_wf_run (history : list Sse.action) (w : Sse.world) :
  registry_wf w → registry_wf (Sse.run history w).
Proof.
  revert w. induction history as [|a history IH]; intros w Hwf; [done|].
  apply IH. by apply registry_wf_step.
Qed.

Lemma registry_wf_initial : registry_wf Sse.initial_world.
Proof. intros session_id queue Hlookup. cbn in Hlookup. by rewrite lookup_empty in Hlookup. Qed.







(** * More about the code *)

(** ** The registry *)

(** X1: [create] puts a new, empty queue on the heap and registers it under
    the id: [get] then returns this queue; the other ids and the other
    queues are as before. *)
Theorem create_registers_new_queue (session_id : str) (w : Sse.world) :
  ∃ queue w',
    Sse.create session_id w = (Ok queue, w') ∧
    (queue ∉ dom (Sse.queues w)) ∧
    Sse.queues w' !! queue = Some [] ∧
    Sse.get session_id w' = (Ok queue, w') ∧
    (∀ other, other ≠ session_id → Sse.sessions w' !! other = Sse.sessions w !! other) ∧
    (∀ q, q ≠ queue → Sse.queues w' !! q = Sse.queues w !! q).
Proof.
  eexists _, _. split; [reflexivity|]. cbn. repeat split.
  - apply is_fresh.
  - by rewrite lookup_insert_eq.
  - unfold Sse.get. cbn. by rewrite lookup_insert_eq.
  - intros other Hne. by rewrite lookup_insert_ne.
  - intros q Hne. by rewrite lookup_insert_ne.
Qed.

(** X2: [pop] returns the queue registered under the id, or [None], and
    unregisters the id: [get] then raises [KeyError] with the id, and a
    second [pop] returns [None] and changes nothing.  The heap and the other
    ids are as before. *)
Theorem pop_unregisters (session_id : str) (w : Sse.world) :
  ∃ w',
    Sse.pop session_id w = (Ok (Sse.sessions w !! session_id), w') ∧
    Sse.get session_id w' = (Raise (KeyError session_id), w') ∧
    Sse.pop session_id w' = (Ok None, w') ∧
    Sse.queues w' = Sse.queues w ∧
    (∀ other, other ≠ session_id → Sse.sessions w' !! other = Sse.sessions w !! other).
Proof.
  eexists. split; [reflexivity|]. cbn. repeat split.
  - unfold Sse.get. cbn. by rewrite lookup_delete_eq.
  - unfold Sse.pop. cbn. rewrite lookup_delete_eq. f_equal. f_equal.
    apply delete_id, lookup_delete_eq.
  - intros other Hne. by rewrite lookup_delete_ne.
Qed.

(** Distinct ids name distinct queues. *)
Lemma registry_inj_step (w : Sse.world) (a : Sse.action) :
  registry_wf w →
  (∀ s1 s2 q, Sse.sessions w !! s1 = Some q → Sse.sessions w !! s2 = Some q → s1 = s2) →
  ∀ s1 s2 q,
    Sse.sessions (Sse.step w a) !! s1 = Some q →
    Sse.sessions (Sse.step w a) !! s2 = Some q → s1 = s2.
Proof.
  intros Hwf Hinj s1 s2 q.
  destruct a as [s|r s q'|q'|s|r]; cbn.
  - rewrite sse_stream_eq. cbn.
    assert (Hfresh : ∀ s', Sse.sessions w !! s' ≠ Some (fresh (dom (Sse.queues w)))).
    { intros s' Hs'. apply Hwf in Hs'. by apply is_fresh in Hs'. }
    destruct (decide (s = s1)) as [Heq1|Hne1], (decide (s = s2)) as [Heq2|Hne2].
    + congruence.
    + subst s. rewrite lookup_insert_eq, lookup_insert_ne by done.
      intros [= <-] H2. by apply Hfresh in H2.
    + subst s. rewrite lookup_insert_eq, lookup_insert_ne by done.
      intros H1 [= <-]. by apply Hfresh in H1.
    + rewrite !lookup_insert_ne by done. apply Hinj.
  - apply Hinj.
  - unfold Sse.event_generator_next, Sse.Queue_get.
    destruct (Sse.queue_items w q'); apply Hinj.
  - intros [_ H1]%lookup_delete_Some [_ H2]%lookup_delete_Some. by eapply Hinj.
  - rewrite post_message_sessions. apply Hinj.
Qed.

Lemma registry_inj_run (history : list Sse.action) (s1 s2 : str) (q : Sse.loc) :
  Sse.sessions (Sse.run history Sse.initial_world) !! s1 = Some q →
  Sse.sessions (Sse.run history Sse.initial_world) !! s2 = Some q →
  s1 = s2.
Proof.
  cut (∀ w, registry_wf w →
         (∀ s1 s2 q, Sse.sessions w !! s1 = Some q → Sse.sessions w !! s2 = Some q → s1 = s2) →
         ∀ s1 s2 q, Sse.sessions (Sse.run history w) !! s1 = Some q →
                    Sse.sessions (Sse.run history w) !! s2 = Some q → s1 = s2).
  { intros Hcut. apply Hcut; [apply registry_wf_initial|].
    intros ??? H. cbn in H. by rewrite lookup_empty in H. }
  induction history as [|a history IH]; intros w Hwf Hinj; [done|].
  cbn. apply IH; [by apply registry_wf_step | by apply registry_inj_step].
Qed.

(** X3: whatever the tasks of the server have done, two session ids that
    are registered name two queues, and every registered queue is on the
    heap: a queue belongs to one session. *)
Theorem sessions_do_not_share_queues (history : list Sse.action) (s1 s2 : str)
    (q1 q2 : Sse.loc) :
  let w := Sse.run history Sse.initial_world in
  Sse.sessions w !! s1 = Some q1 →
  Sse.sessions w !! s2 = Some q2 →
  s1 ≠ s2 →
  q1 ≠ q2 ∧ q1 ∈ dom (Sse.queues w) ∧ q2 ∈ dom (Sse.queues w).
Proof.
  intros w H1 H2 Hne.
  pose proof (registry_wf_run history _ registry_wf_initial) as Hwf.
  repeat split; [|by eapply Hwf..].
  intros ->. by apply Hne, (registry_inj_run history s1 s2 q2).
Qed.

(** X4: a GET that draws an id which is already registered takes the id
    over: the id now names a new queue, the queue of the first stream keeps
    what it holds and is out of reach of every later POST, and when either
    stream ends the id is unregistered. *)
Theorem reused_id_takes_over (history : list Sse.action) (session_id : str)
    (old : Sse.loc) (request : Request) :
  let w := Sse.run history Sse.initial_world in
  Sse.sessions w !! session_id = Some old →
  query_params request !! "sessionid" = Some session_id →
  ∃ queue w',
    Sse.sse_stream session_id w = (Ok queue, w') ∧
    queue ≠ old ∧
    Sse.sessions w' !! session_id = Some queue ∧
    Sse.queue_items w' old = Sse.queue_items w old ∧
    Sse.queue_items (Sse.post_message request w').2 old = Sse.queue_items w old ∧
    Sse.sessions (Sse.event_generator_finally session_id w').2 !! session_id = None.
Proof.
  intros w Hold Hquery.
  pose proof (registry_wf_run history _ registry_wf_initial) as Hwf. fold w in Hwf.
  assert (Hne : fresh (dom (Sse.queues w)) ≠ old).
  { intros Heq. apply Hwf in Hold. rewrite <- Heq in Hold. by apply is_fresh in Hold. }
  eexists _, _. split; [apply sse_stream_eq|]. cbn.
  split; [done|]. split; [by rewrite lookup_insert_eq|].
  assert (Hsame : ∀ w', Sse.queues w' !! old = Sse.queues w !! old →
                        Sse.queue_items w' old = Sse.queue_items w old).
  { intros w' Heq. unfold Sse.queue_items. by rewrite Heq. }
  split; [apply Hsame; cbn; by rewrite lookup_insert_ne|].
  split; [|by rewrite lookup_delete_eq].
  apply Hsame.
  match goal with |- context [Sse.post_message request ?w1] =>
    destruct (post_message_effect request w1) as [-> | (s & q & data & Hs & Hq & ->)]
  end; cbn.
  - by rewrite lookup_insert_ne.
  - rewrite Hquery in Hs. injection Hs as <-. cbn in Hq.
    rewrite lookup_insert_eq in Hq. injection Hq as <-.
    by rewrite !lookup_insert_ne.
Qed.

(** ** The POST handler *)

Lemma build_response_raises (payload : value) (e : exn) :
  Sse.build_response payload = Raise e → e = AttributeError.
Proof.
  unfold Sse.build_response, Sse.perform_to_uppercase.
  destruct payload; cbn; try by intros [= <-].
  repeat (match goal with
          | |- context [if ?b then _ else _] => destruct b
          | |- context [py_get ?o ?k ?v] => destruct o; cbn
          | |- context [py_upper ?o] => destruct o; cbn
          end; try discriminate; try by intros [= <-]).
Qed.

(** X5: the outcomes of [post_message].  It answers 202 exactly when the
    request names a registered session, the body is JSON and the dispatcher
    returns a response; the frame of this response is then appended to the
    queue of that session, and nothing else changes.  Otherwise it raises,
    and the world is as before: 400 without a session id, 404 for a session
    that is not registered, and for a registered session the exception of
    [request.json()] or the [AttributeError] of the dispatcher. *)
Theorem post_message_outcomes (request : Request) (w : Sse.world) :
  match Sse.post_message request w with
  | (Ok response, w') =>
      response = Sse.JSONResponse 202 (VDict [("status", VStr "accepted")]) ∧
      ∃ session_id queue payload answer,
        query_params request !! "sessionid" = Some session_id ∧
        session_id ≠ "" ∧
        Sse.sessions w !! session_id = Some queue ∧
        json_body request = Ok payload ∧
        Sse.build_response payload = Ok answer ∧
        Sse.sessions w' = Sse.sessions w ∧
        Sse.queue_items w' queue =
          (Sse.queue_items w queue ++ [Sse.format_sse "message" (json_dumps answer)])%list ∧
        ∀ q, q ≠ queue → Sse.queues w' !! q = Sse.queues w !! q
  | (Raise e, w') =>
      w' = w ∧
      ((py_not (query_params request !! "sessionid") = true ∧
        e = HTTPException 400 "sessionid must be provided for POST requests") ∨
       (∃ session_id,
          query_params request !! "sessionid" = Some session_id ∧
          Sse.sessions w !! session_id = None ∧
          e = HTTPException 404 "session not found; establish the SSE stream first") ∨
       (∃ session_id queue,
          query_params request !! "sessionid" = Some session_id ∧
          Sse.sessions w !! session_id = Some queue ∧
          (json_body request = Raise e ∨
           ∃ payload, json_body request = Ok payload ∧
                      Sse.build_response payload = Raise e ∧ e = AttributeError)))
  end.
Proof.
  destruct (query_params request !! "sessionid") as [session_id|] eqn:Hquery.
  2: { rewrite post_without_session_id by (by rewrite Hquery). auto. }
  destruct (decide (session_id = "")) as [->|Hid].
  { rewrite post_without_session_id by (by rewrite Hquery). auto. }
  destruct (Sse.sessions w !! session_id) as [queue|] eqn:Hqueue.
  2: { rewrite (post_message_not_registered request session_id) by done.
       split; [done|]. right. left. by exists session_id. }
  destruct (json_body request) as [payload|e] eqn:Hbody.
  2: { unfold Sse.post_message. rewrite Hquery. cbn.
       destruct (str_eqb_spec session_id "") as [->|_]; [done|].
       unfold mbind, Sse.handler_bind, Sse.except_KeyError, Sse.get, Sse.lift. cbn.
       rewrite Hqueue, Hbody. split; [done|]. right. right.
       exists session_id, queue. auto. }
  destruct (Sse.build_response payload) as [answer|e] eqn:Hanswer.
  - rewrite (post_message_registered request session_id queue answer); try done.
    2: { unfold answer_of. by rewrite Hbody. }
    split; [done|]. exists session_id, queue, payload, answer. cbn.
    repeat split; try done.
    + unfold Sse.queue_items at 1. cbn. by rewrite lookup_insert_eq.
    + intros q Hne. by rewrite lookup_insert_ne.
  - unfold Sse.post_message. rewrite Hquery. cbn.
    destruct (str_eqb_spec session_id "") as [->|_]; [done|].
    unfold mbind, Sse.handler_bind, Sse.except_KeyError, Sse.get, Sse.lift. cbn.
    rewrite Hqueue, Hbody. cbn. rewrite Hanswer. split; [done|].
    pose proof (build_response_raises _ _ Hanswer) as ->.
    right. right. exists session_id, queue. split; [done|]. split; [done|].
    right. by exists payload.
Qed.

(** X6: a POST that names one session changes no queue of another
    registered session. *)
Theorem post_leaves_other_sessions_alone (history : list Sse.action) (request : Request)
    (session_id other : str) (queue : Sse.loc) :
  let w := Sse.run history Sse.initial_world in
  query_params request !! "sessionid" = Some session_id →
  Sse.sessions w !! other = Some queue →
  other ≠ session_id →
  Sse.queues (Sse.post_message request w).2 !! queue = Sse.queues w !! queue.
Proof.
  intros w Hquery Hother Hne.
  destruct (post_message_effect request w) as [-> | (s & q & data & Hs & Hq & ->)]; [done|].
  rewrite Hquery in Hs. injection Hs as <-. cbn.
  rewrite lookup_insert_ne; [done|]. intros ->.
  by apply Hne, (registry_inj_run history other session_id queue).
Qed.

(** ** Delivery *)

Lemma event_generator_take_queue (n : nat) (queue : Sse.loc) (w : Sse.world) :
  (event_generator_take n queue w).1 = take n (Sse.queue_items w queue) ∧
  Sse.queue_items (event_generator_take n queue w).2 queue = drop n (Sse.queue_items w queue).
Proof.
  revert w. induction n as [|n IH]; intros w; cbn.
  { by rewrite drop_0. }
  unfold Sse.event_generator_next, Sse.Queue_get.
  destruct (Sse.queue_items w queue) as [|data rest] eqn:Hitems; cbn.
  { by rewrite Hitems. }
  match goal with |- context [event_generator_take n queue ?w1] =>
    specialize (IH w1); destruct (event_generator_take n queue w1) as [chunks w2]
  end.
  cbn in *. unfold Sse.queue_items at 1 3 in IH. cbn in IH.
  rewrite lookup_insert_eq in IH. cbn in IH. destruct IH as [-> ->]. done.
Qed.

Lemma run_cons (a : Sse.action) (history : list Sse.action) (w : Sse.world) :
  Sse.run (a :: history) w = Sse.run history (Sse.step w a).
Proof. reflexivity. Qed.

Lemma posts_append_in_order (session_id : str) (queue : Sse.loc)
    (requests : list Request) (answers : list value) (w : Sse.world) :
  session_id ≠ "" →
  Sse.sessions w !! session_id = Some queue →
  Forall2 (λ request answer,
             query_params request !! "sessionid" = Some session_id ∧
             answer_of request = Ok answer) requests answers →
  Sse.queue_items (Sse.run (Sse.PostMessage <$> requests) w) queue =
    (Sse.queue_items w queue
     ++ ((λ answer, Sse.format_sse "message" (json_dumps answer)) <$> answers))%list.
Proof.
  intros Hid Hqueue Hall. revert w Hqueue.
  induction Hall as [|request answer requests answers [Hquery Hanswer] _ IH];
    intros w Hqueue.
  { cbn. by rewrite app_nil_r. }
  rewrite fmap_cons, run_cons, IH.
  - cbn. rewrite (post_message_registered request session_id queue answer) by done. cbn.
    unfold Sse.queue_items at 1. cbn. rewrite lookup_insert_eq. cbn.
    by rewrite <- app_assoc.
  - cbn. by rewrite post_message_sessions.
Qed.

(** X7: the frames of a session reach its stream in the order of the POSTs:
    after POSTs that name the session and get a response, the generator
    yields what was waiting in the queue, then the frames of the responses
    in the order of the POSTs, and then waits. *)
Theorem frames_arrive_in_order (session_id : str) (queue : Sse.loc)
    (requests : list Request) (answers : list value) (w : Sse.world) :
  session_id ≠ "" →
  Sse.sessions w !! session_id = Some queue →
  Forall2 (λ request answer,
             query_params request !! "sessionid" = Some session_id ∧
             answer_of request = Ok answer) requests answers →
  let w' := Sse.run (Sse.PostMessage <$> requests) w in
  let waiting := Sse.queue_items w queue in
  let frames := (λ answer, Sse.format_sse "message" (json_dumps answer)) <$> answers in
  let n := (length waiting + length answers)%nat in
  (event_generator_take n queue w').1 = (waiting ++ frames)%list ∧
  Sse.event_generator_next queue (event_generator_take n queue w').2 = None.
Proof.
  intros Hid Hqueue Hall w' waiting frames n.
  pose proof (posts_append_in_order _ _ _ _ _ Hid Hqueue Hall) as Hitems.
  fold w' waiting frames in Hitems.
  assert (Hn : n = length (waiting ++ frames)%list).
  { unfold n, frames. by rewrite length_app, length_fmap. }
  destruct (event_generator_take_queue n queue w') as [Htake Hdrop].
  rewrite Hitems in Htake, Hdrop. split.
  - rewrite Htake, Hn. apply firstn_all.
  - unfold Sse.event_generator_next, Sse.Queue_get. rewrite Hdrop, Hn.
    by rewrite drop_all.
Qed.

Lemma post_message_in_two_steps (request : Request) (w : Sse.world) :
  Sse.post_message request w =
    (post_message_lookup request ≫= post_message_deliver request) w.
Proof.
  unfold Sse.post_message, post_message_lookup.
  by destruct (py_not (query_params request !! "sessionid")).
Qed.

(** X8: a POST that is suspended while it reads its body, after it has
    looked the session up, and resumes when the stream of the session has
    ended still answers 202: the frame goes to the queue it looked up, which
    no session names any more, and a later POST to the same session gets
    404.  Without the suspension the two halves are [post_message]. *)
Theorem post_after_stream_end_is_lost (history : list Sse.action) (request : Request)
    (session_id : str) (queue : Sse.loc) (answer : value) :
  let w := Sse.run history Sse.initial_world in
  query_params request !! "sessionid" = Some session_id →
  session_id ≠ "" →
  Sse.sessions w !! session_id = Some queue →
  answer_of request = Ok answer →
  let closed := (Sse.event_generator_finally session_id w).2 in
  let delivered := (post_message_deliver request queue closed).2 in
  (∀ w0, Sse.post_message request w0 =
           (post_message_lookup request ≫= post_message_deliver request) w0) ∧
  post_message_lookup request w = (Ok queue, w) ∧
  (post_message_deliver request queue closed).1 =
    Ok (Sse.JSONResponse 202 (VDict [("status", VStr "accepted")])) ∧
  Sse.queue_items delivered queue =
    (Sse.queue_items w queue ++ [Sse.format_sse "message" (json_dumps answer)])%list ∧
  (∀ s, Sse.sessions delivered !! s ≠ Some queue) ∧
  Sse.post_message request delivered =
    (Raise (HTTPException 404 "session not found; establish the SSE stream first"),
     delivered).
Proof.
  intros w Hquery Hid Hqueue Hanswer closed delivered.
  assert (Hdeliver : post_message_deliver request queue closed =
            (Ok (Sse.JSONResponse 202 (VDict [("status", VStr "accepted")])),
             {| Sse.sessions := delete session_id (Sse.sessions w);
                Sse.queues :=
                  <[queue := (Sse.queue_items w queue
                              ++ [Sse.format_sse "message" (json_dumps answer)])%list]>
                    (Sse.queues w) |})).
  { unfold answer_of in Hanswer.
    unfold post_message_deliver, mbind, Sse.handler_bind, Sse.lift. cbn.
    destruct (json_body request) as [payload|]; [|done].
    cbn in Hanswer. by rewrite Hanswer. }
  unfold delivered. rewrite Hdeliver. cbn.
  split; [apply post_message_in_two_steps|].
  split.
  { unfold post_message_lookup. rewrite Hquery. cbn.
    destruct (str_eqb_spec session_id "") as [->|_]; [done|].
    unfold Sse.except_KeyError, Sse.get. cbn. by rewrite Hqueue. }
  split; [done|]. split.
  { unfold Sse.queue_items at 1. cbn. by rewrite lookup_insert_eq. }
  split.
  - intros s [Hs Hlookup]%lookup_delete_Some.
    by apply Hs, eq_sym, (registry_inj_run history s session_id queue).
  - apply (post_message_not_registered request session_id); [done..|].
    cbn. apply lookup_delete_eq.
Qed.

(** X9: while a session is open, that is from the GET that registered its
    id until a stream with this id ends, a POST that names it and carries a
    request the dispatcher answers is accepted with 202, and the frame of
    the response is appended to the queue registered for the session. *)
Theorem post_to_open_session (history : list Sse.action) (request : Request)
    (session_id : str) (answer : value) :
  query_params request !! "sessionid" = Some session_id →
  session_id ≠ "" →
  session_open session_id history = true →
  answer_of request = Ok answer →
  let w := Sse.run history Sse.initial_world in
  ∃ queue,
    Sse.sessions w !! session_id = Some queue ∧
    Sse.post_message request w =
      (Ok (Sse.JSONResponse 202 (VDict [("status", VStr "accepted")])),
       {| Sse.sessions := Sse.sessions w;
          Sse.queues :=
            <[queue := (Sse.queue_items w queue
                        ++ [Sse.format_sse "message" (json_dumps answer)])%list]>
              (Sse.queues w) |}).
Proof.
  intros Hquery Hid Hopen Hanswer w.
  assert (Hsome : is_Some (Sse.sessions w !! session_id)).
  { pose proof (registered_run session_id history Sse.initial_world) as Hrun.
    replace (registered Sse.initial_world session_id) with false in Hrun by done.
    unfold session_open in Hopen. rewrite Hopen in Hrun.
    by apply bool_decide_eq_true in Hrun. }
  destruct Hsome as [queue Hqueue]. exists queue. split; [done|].
  by apply (post_message_registered request session_id).
Qed.

(** ** The dispatchers, again *)





(** X11: [build_response] answers exactly the requests whose body is a JSON
    object and, for [tools/call], whose [params] is an object or left out
    and, for the tool [to-uppercase], whose [arguments] is an object or left
    out and whose [input] is a string or left out; on every other request it
    raises [AttributeError].  The arguments of any other tool are not read. *)
Theorem build_response_answers_or_raises (payload : value) :
  match Sse.build_response payload with
  | Ok _ => sse_request_ok payload = true
  | Raise e => e = AttributeError ∧ sse_request_ok payload = false
  end.
Proof.
  unfold Sse.build_response, Sse.perform_to_uppercase, sse_request_ok.
  destruct payload as [| | | | |?|d]; cbn; try done.
  destruct (py_eq_str _ "initialize"); [done|].
  destruct (py_eq_str _ "tools/list"); [done|].
  destruct (py_eq_str _ "tools/call"); [|done].
  destruct (dict_get d "params" _) as [| | | | |?|ps]; cbn; try done.
  destruct (py_eq_str _ "to-uppercase"); [|done].
  destruct (dict_get ps "arguments" _) as [| | | | |?|args]; cbn; try done.
  by destruct (dict_get args "input" _).
Qed.

(** X12: on a request whose method is neither [tools/list] nor
    [tools/call] the two transports build the same envelope: the fixed
    result for [initialize], and the error [-32601] for any other method,
    also one that is missing or not a string.  [params] is not read.  The
    session-registry dispatcher returns the envelope; the streamable handler
    builds a [JSONResponse] of it, with status 200, which is returned when
    the id renders and raises [ValueError] or [UnicodeEncodeError]
    otherwise. *)
Theorem transports_agree_outside_tools (request : Request) (d : dict) :
  json_body request = Ok (VDict d) →
  py_eq_str (dict_get d "method" VNone) "tools/list" = false →
  py_eq_str (dict_get d "method" VNone) "tools/call" = false →
  let request_id := dict_get d "id" VNone in
  let envelope :=
    if py_eq_str (dict_get d "method" VNone) "initialize" then
      VDict [("jsonrpc", VStr "2.0"); ("id", request_id);
             ("result", Sse.initialize_result)]
    else
      VDict [("jsonrpc", VStr "2.0"); ("id", request_id);
             ("error", VDict [("code", VInt (-32601));
                              ("message", VStr "Method not found")])] in
  Sse.build_response (VDict d) = Ok envelope ∧
  Streamable.handle_mcp request = Streamable.new_JSONResponse 200 envelope ∧
  Streamable.handle_mcp request =
    (if negb (floats_in_range request_id) then Raise ValueError
     else if negb (utf8_encodable request_id) then Raise UnicodeEncodeError
     else Ok (Streamable.JSONResponse 200 envelope)).
Proof.
  intros Hbody Hlist Hcall request_id envelope.
  assert (Hmcp : Streamable.handle_mcp request = Streamable.new_JSONResponse 200 envelope).
  { unfold envelope, Streamable.handle_mcp. rewrite Hbody. cbn.
    destruct (py_eq_str _ "initialize"); [done|]. by rewrite Hlist, Hcall. }
  split; [|split; [exact Hmcp|]].
  - unfold envelope, Sse.build_response. cbn.
    destruct (py_eq_str _ "initialize"); [done|]. by rewrite Hlist, Hcall.
  - rewrite Hmcp, new_JSONResponse_eq. unfold envelope.
    destruct (py_eq_str _ "initialize"); cbn; by rewrite !andb_true_r.
Qed.

(** X13: the dispatchers read [method], [id] and [params] and nothing else
    of a request: two requests that agree on these three, a missing [params]
    counting as an empty object, get the same answer.  The field [jsonrpc]
    is never looked at. *)
Theorem dispatch_reads_three_fields (r1 r2 : Request) (d1 d2 : dict) :
  json_body r1 = Ok (VDict d1) →
  json_body r2 = Ok (VDict d2) →
  dict_get d1 "method" VNone = dict_get d2 "method" VNone →
  dict_get d1 "id" VNone = dict_get d2 "id" VNone →
  dict_get d1 "params" (VDict []) = dict_get d2 "params" (VDict []) →
  Sse.build_response (VDict d1) = Sse.build_response (VDict d2) ∧
  Streamable.handle_mcp r1 = Streamable.handle_mcp r2.
Proof.
  intros Hbody1 Hbody2 Hmethod Hid Hparams.
  unfold Sse.build_response, Streamable.handle_mcp, Streamable.slow_uppercase_stream.
  rewrite Hbody1, Hbody2. cbn. by rewrite Hmethod, Hid, Hparams.
Qed.


(** ** The stream of the slow tool, again *)

Lemma py_get_raises (o : value) (key : str) (default : value) (e : exn) :
  py_get o key default = Raise e → e = AttributeError.
Proof. destruct o; cbn; congruence. Qed.

(** X15: the stream of the slow tool is never cut short by the server: it
    either yields all eleven frames and ends, or raises [AttributeError]
    before its first frame. *)
Theorem slow_stream_is_all_or_nothing (payload request_id : value) (input_value : str) :
  match drain (Streamable.slow_uppercase_stream payload request_id input_value) with
  | (frames, None) => length frames = 11%nat
  | (frames, Some e) => frames = [] ∧ e = AttributeError
  end.
Proof.
  unfold Streamable.slow_uppercase_stream.
  destruct (_ ≫= _) as [progress_token|e] eqn:Htoken.
  - by rewrite drain_yield_all.
  - cbn. split; [done|]. revert Htoken.
    destruct (py_get payload _ _) as [params|?] eqn:Hparams; cbn.
    2: { intros [= <-]. by eapply py_get_raises. }
    destruct (py_get params _ _) as [meta|?] eqn:Hmeta; cbn.
    2: { intros [= <-]. by eapply py_get_raises. }
    apply py_get_raises.
Qed.

(** X16: a call of the slow tool whose [_meta] is there and is not an
    object is answered with a stream all the same, as the handler does not
    read [_meta]: the failure comes when the body is read, which raises
    [AttributeError] before any frame, so the client gets no progress and no
    response. *)
Theorem bad_meta_fails_inside_the_stream (request : Request) (d ps args : dict)
    (meta : value) :
  json_body request = Ok (VDict d) →
  dict_get d "method" VNone = VStr "tools/call" →
  dict_get d "params" (VDict []) = VDict ps →
  dict_get ps "name" VNone = VStr "to-uppercase-slowly" →
  dict_get ps "arguments" (VDict []) = VDict args →
  dict_get ps "_meta" (VDict []) = meta →
  (∀ m, meta ≠ VDict m) →
  stream_of (Streamable.handle_mcp request) = Some ([], Some AttributeError).
Proof.
  intros Hbody Hmethod Hparams Hname Hargs Hmeta Hshape.
  by apply (slow_call_stream_bad_meta request d ps args meta).
Qed.

(** ** Framing *)

Lemma line_break_splits (e1 e2 r1 r2 : str) :
  newline_free e1 = true → newline_free e2 = true →
  e1 ++ LF ++ r1 = e2 ++ LF ++ r2 → e1 = e2 ∧ r1 = r2.
Proof.
  unfold newline_free, LF, chr. revert e2.
  induction e1 as [|c1 e1 IH]; intros [|c2 e2] H1 H2 Heq;
    cbn [contains_char] in H1, H2; cbn [app] in Heq.
  - by injection Heq as ->.
  - injection Heq as <- _. by rewrite N.eqb_refl in H2.
  - injection Heq as -> _. by rewrite N.eqb_refl in H1.
  - injection Heq as -> Heq.
    apply negb_true_iff, orb_false_iff in H1 as [_ H1].
    apply negb_true_iff, orb_false_iff in H2 as [_ H2].
    destruct (IH e2) as [-> ->]; [by rewrite H1 | by rewrite H2 | done | done].
Qed.

(** X17: a frame tells its event and its data: two frames of [format_sse]
    are the same text only when the events are the same and the data are the
    same, for events without a line break.  Both files have this framer. *)
Theorem format_sse_is_injective (event1 data1 event2 data2 : str) :
  newline_free event1 = true →
  newline_free event2 = true →
  (Sse.format_sse event1 data1 = Sse.format_sse event2 data2 →
   event1 = event2 ∧ data1 = data2) ∧
  (Streamable.format_sse event1 data1 = Streamable.format_sse event2 data2 →
   event1 = event2 ∧ data1 = data2).
Proof.
  intros H1 H2.
  assert (Hinj : "event: " ++ event1 ++ LF ++ "data: " ++ data1 ++ LF ++ LF =
                 "event: " ++ event2 ++ LF ++ "data: " ++ data2 ++ LF ++ LF →
                 event1 = event2 ∧ data1 = data2).
  { intros Heq. apply app_inv_head in Heq.
    apply line_break_splits in Heq as [-> Heq]; [|done..]. split; [done|].
    apply app_inv_head in Heq. by apply app_inv_tail in Heq. }
  split; exact Hinj.
Qed.

(** ** Lines *)

Lemma value_ind_deep (P : value → Prop) :
  P VNone →
  (∀ b, P (VBool b)) →
  (∀ n, P (VInt n)) →
  (∀ r, P (VFloat r)) →
  (∀ s, P (VStr s)) →
  (∀ l, Forall P l → P (VList l)) →
  (∀ d, Forall (λ kv, P kv.2) d → P (VDict d)) →
  ∀ v, P v.
Proof.
  intros HNone HBool HInt HFloat HStr HList HDict.
  fix IH 1. intros [|b|n|r|s|l|d].
  - exact HNone.
  - apply HBool.
  - apply HInt.
  - apply HFloat.
  - apply HStr.
  - apply HList. induction l as [|v l IHl]; constructor; [apply IH | exact IHl].
  - apply HDict. induction d as [|[k v] d IHd]; constructor; [apply IH | exact IHd].
Qed.

Lemma newline_free_app (s t : str) :
  newline_free (s ++ t) = newline_free s && newline_free t.
Proof.
  unfold newline_free. induction s as [|c s IH]; [done|].
  cbn [app contains_char]. destruct (10 =? c)%N; [done|]. exact IH.
Qed.

Lemma newline_free_join (sep : str) (parts : list str) :
  newline_free sep = true →
  Forall (λ p, newline_free p = true) parts →
  newline_free (join sep parts) = true.
Proof.
  intros Hsep Hparts. induction Hparts as [|p parts Hp Hparts IH]; [done|].
  destruct parts as [|p' parts]; [done|].
  change (join sep (p :: p' :: parts)) with (p ++ sep ++ join sep (p' :: parts)).
  by rewrite !newline_free_app, Hp, Hsep, IH.
Qed.

Lemma of_string_cons (a : ascii) (s : string) :
  of_string (String a s) = N_of_ascii a :: of_string s.
Proof. reflexivity. Qed.

Lemma pretty_N_char_not_LF (d : N) : (10 =? N_of_ascii (pretty_N_char d))%N = false.
Proof. unfold pretty_N_char. repeat case_match; reflexivity. Qed.

Lemma newline_free_pretty_N_go (x : N) (s : string) :
  newline_free (of_string s) = true → newline_free (of_string (pretty_N_go x s)) = true.
Proof.
  revert s. induction (N.lt_wf_0 x) as [x _ IH]; intros s Hs.
  assert (x = 0 ∨ 0 < x)%N as [->|Hx] by lia.
  - by rewrite pretty_N_go_0.
  - rewrite pretty_N_go_step by done. apply IH; [by apply N.div_lt|].
    rewrite of_string_cons. unfold newline_free in *. cbn [contains_char].
    by rewrite pretty_N_char_not_LF.
Qed.

Lemma newline_free_int_repr (n : Z) : newline_free (int_repr n) = true.
Proof.
  assert (HN : ∀ x : N, newline_free (of_string (pretty x)) = true).
  { intros x. unfold pretty, pretty_N. case_decide; [done|].
    by apply newline_free_pretty_N_go. }
  unfold int_repr. destruct n as [|p|p]; [done | apply HN |].
  change (pretty (Z.neg p)) with (String "-"%char (pretty (N.pos p))).
  rewrite of_string_cons. specialize (HN (N.pos p)).
  unfold newline_free in *. cbn [contains_char]. exact HN.
Qed.

Lemma newline_free_hex (width : nat) (n : N) : newline_free (hex width n) = true.
Proof.
  revert n. induction width as [|width IH]; intros n; [done|].
  cbn [hex]. rewrite newline_free_app, IH. cbn [andb].
  unfold newline_free, hex_digit. cbn [contains_char]. rewrite orb_false_r.
  apply negb_true_iff, N.eqb_neq. generalize (n `mod` 16)%N. intros d.
  case_match; lia.
Qed.

Lemma newline_free_json_escape_char (c : N) : newline_free (json_escape_char c) = true.
Proof.
  unfold json_escape_char.
  repeat match goal with
         | |- context [if ?b then _ else _] => destruct b eqn:?
         end;
    rewrite ?newline_free_app, ?newline_free_hex; try reflexivity.
  unfold newline_free. cbn [contains_char]. rewrite orb_false_r.
  apply negb_true_iff, N.eqb_neq. intros <-. discriminate.
Qed.

Lemma newline_free_json_escape (s : str) : newline_free (json_escape s) = true.
Proof.
  induction s as [|c s IH]; [done|].
  cbn [json_escape]. by rewrite newline_free_app, newline_free_json_escape_char, IH.
Qed.

Lemma newline_free_json_string (s : str) : newline_free (json_string s) = true.
Proof.
  unfold json_string. by rewrite !newline_free_app, newline_free_json_escape.
Qed.

Lemma forallb_true_Forall {A} (f : A → bool) (l : list A) :
  forallb f l = true → Forall (λ x, f x = true) l.
Proof.
  induction l as [|x l IH]; cbn; [constructor|].
  intros [Hx Hl]%andb_true_iff. constructor; auto.
Qed.

Lemma newline_free_json_dumps (v : value) :
  floats_on_one_line v = true → newline_free (json_dumps v) = true.
Proof.
  induction v as [|b|n|r|s|l IH|d IH] using value_ind_deep; cbn [json_dumps];
    intros Hfloats.
  - done.
  - by destruct b.
  - apply newline_free_int_repr.
  - unfold json_float. cbn in Hfloats. by repeat case_match.
  - apply newline_free_json_string.
  - rewrite !newline_free_app.
    apply andb_true_iff. split; [reflexivity|].
    apply andb_true_iff. split; [|reflexivity].
    apply newline_free_join; [reflexivity|].
    apply Forall_fmap. apply forallb_true_Forall in Hfloats.
    induction Hfloats as [|v l Hv Hl IHl]; [constructor|].
    apply Forall_cons in IH as [IHv IH]. constructor; [by apply IHv | by apply IHl].
  - rewrite !newline_free_app.
    apply andb_true_iff. split; [reflexivity|].
    apply andb_true_iff. split; [|reflexivity].
    apply newline_free_join; [reflexivity|].
    apply Forall_fmap. apply forallb_true_Forall in Hfloats.
    induction Hfloats as [|[k v] d Hv Hd IHd]; [constructor|].
    apply Forall_cons in IH as [IHv IH]. constructor; [|by apply IHd].
    unfold compose. cbn [fst snd] in *.
    by rewrite !newline_free_app, newline_free_json_string, (IHv Hv).
Qed.

Lemma floats_dict_get (d : dict) (key : str) (default : value) :
  floats_on_one_line (VDict d) = true →
  floats_on_one_line default = true →
  floats_on_one_line (dict_get d key default) = true.
Proof.
  intros Hd Hdefault. unfold dict_get.
  induction d as [|[k v] d IH]; cbn in *; [done|].
  apply andb_true_iff in Hd as [Hv Hd].
  destruct (str_eqb k key); [done|]. by apply IH.
Qed.

Lemma floats_py_get (o : value) (key : str) (default v : value) :
  floats_on_one_line o = true →
  floats_on_one_line default = true →
  py_get o key default = Ok v →
  floats_on_one_line v = true.
Proof.
  intros Ho Hdefault. destruct o; cbn; try discriminate.
  intros [= <-]. by apply floats_dict_get.
Qed.

Lemma floats_build_response (payload answer : value) :
  floats_on_one_line payload = true →
  Sse.build_response payload = Ok answer →
  floats_on_one_line answer = true.
Proof.
  intros Hfloats. unfold Sse.build_response, Sse.perform_to_uppercase, Sse.method_not_found.
  destruct payload as [| | | | |?|d]; cbn; try discriminate.
  assert (Hid : floats_on_one_line (dict_get d "id" VNone) = true)
    by by apply floats_dict_get.
  repeat (match goal with
          | |- context [if ?b then _ else _] => destruct b
          | |- context [py_get ?o ?k ?v] => destruct (py_get o k v); cbn
          | |- context [py_upper ?o] => destruct (py_upper o); cbn
          end; try discriminate);
    intros [= <-]; cbn; by rewrite Hid.
Qed.

#[local] Arguments json_dumps : simpl never.

Lemma slow_stream_frames_one_line (payload request_id : value) (input_value : str) :
  floats_on_one_line payload = true →
  floats_on_one_line request_id = true →
  Forall (λ frame, ∃ data, frame = Streamable.format_sse "message" data ∧
                           newline_free data = true)
    (drain (Streamable.slow_uppercase_stream payload request_id input_value)).1.
Proof.
  intros Hpayload Hid. unfold Streamable.slow_uppercase_stream.
  destruct (py_get payload "params" _) as [params|] eqn:Hparams; cbn; [|constructor].
  destruct (py_get params "_meta" _) as [meta|] eqn:Hmeta; cbn; [|constructor].
  destruct (py_get meta "progressToken" _) as [progress_token|] eqn:Htoken;
    [|cbn; constructor].
  assert (Htok : floats_on_one_line progress_token = true).
  { eapply floats_py_get; [| |exact Htoken]; [|done].
    eapply floats_py_get; [| |exact Hmeta]; [|done].
    eapply floats_py_get; [| |exact Hparams]; done. }
  cbn [mbind res_bind]. rewrite drain_yield_all. cbn [fst drain].
  apply Forall_app. split.
  - apply Forall_fmap, Forall_true. intros i.
    eexists. split; [reflexivity|]. apply newline_free_json_dumps. cbn.
    by rewrite Htok.
  - constructor; [|constructor].
    eexists. split; [reflexivity|]. apply newline_free_json_dumps.
    unfold Streamable.base_response, text_result. cbn. by rewrite Hid.
Qed.

(** X18: the data of a message frame is one line.  [json.dumps] leaves no
    line break in the text, so the response that [post_message] frames and
    every frame of the stream of the slow tool is the line of the event, one
    line of data and the empty line. *)
Theorem message_frames_hold_one_line (request : Request) (payload : value) :
  json_body request = Ok payload →
  floats_on_one_line payload = true →
  (∀ answer, Sse.build_response payload = Ok answer →
     newline_free (json_dumps answer) = true) ∧
  (∀ frames e, stream_of (Streamable.handle_mcp request) = Some (frames, e) →
     Forall (λ frame, ∃ data, frame = Streamable.format_sse "message" data ∧
                              newline_free data = true) frames).
Proof.
  intros Hpayload Hfloats. split.
  - intros answer Hanswer. apply newline_free_json_dumps.
    by apply (floats_build_response payload).
  - intros frames e Hstream. unfold stream_of in Hstream.
    destruct (Streamable.handle_mcp request) as [[|g]|] eqn:Hmcp; try discriminate.
    apply handle_mcp_stream in Hmcp as (d & input_value & Hbody & ->).
    injection Hstream as Hstream. rewrite Hpayload in Hbody. injection Hbody as ->.
    pose proof (slow_stream_frames_one_line (VDict d) (dict_get d "id" VNone) input_value
                  Hfloats (floats_dict_get d "id" VNone Hfloats eq_refl)) as Hframes.
    by rewrite Hstream in Hframes.
Qed.

End Theorems.

(** * The theorems on sample requests

    The sample requests are evaluated with the sample of the character
    database; none of the counterexamples depends on it. *)

#[local] Existing Instance latin1.

(** [str], [repr] and [upper] on the values of JSON. *)
Example py_str_renderings :
  py_str VNone = "None" ∧ py_str (VBool true) = "True" ∧ py_str (VBool false) = "False" ∧
  py_str (VInt (-12)) = "-12" ∧ py_str (VFloat "1e+100") = "1e+100" ∧
  py_str (VStr "it's") = "it's" ∧
  py_str (VList [VInt 1; VStr "it's"]) = "[1, " ++ QUOTE ++ "it's" ++ QUOTE ++ "]" ∧
  py_str (VDict [("k", VList [])]) = "{'k': []}" ∧
  py_str (VList [VStr [233%N]]) = "['" ++ [233%N] ++ "']" ∧
  py_str (VList [VStr [55296%N; 7%N; 173%N]]) = "['\ud800\x07\xad']" ∧
  py_str (VList [VStr ("a" ++ QUOTE ++ "b'c")]) = "['a" ++ QUOTE ++ "b\'c']" ∧
  py_str (VList [VStr ([127%N; 31%N] ++ BACKSLASH)]) = "['\x7f\x1f\\']".
Proof. repeat split. Qed.

Example str_upper_renderings :
  str_upper "abc" = "ABC" ∧
  str_upper strasse = "STRASSE" ∧
  str_upper (py_str (VList [VStr [233%N]])) = "['" ++ [201%N] ++ "']".
Proof. repeat split. Qed.

(** [json.dumps] escapes what is not printable ASCII: [é], a lone
    surrogate, and a code point beyond the basic plane as two surrogates. *)
Example json_dumps_renderings :
  json_dumps (VStr [233%N]) = QUOTE ++ "\u00e9" ++ QUOTE ∧
  json_dumps (VStr [55296%N]) = QUOTE ++ "\ud800" ++ QUOTE ∧
  json_dumps (VStr [128512%N]) = QUOTE ++ "\ud83d\ude00" ++ QUOTE ∧
  json_dumps (VList [VFloat "nan"; VFloat "-inf"; VFloat "2.5"; VNone]) =
    "[NaN, -Infinity, 2.5, null]" ∧
  json_dumps (VStr ([127%N; 31%N] ++ BACKSLASH ++ QUOTE ++ "/" ++ [8%N; 12%N])) =
    QUOTE ++ "\u007f\u001f" ++ BACKSLASH ++ BACKSLASH ++ BACKSLASH ++ QUOTE ++ "/\b\f"
    ++ QUOTE.
Proof. repeat split. Qed.

(** ** The dispatchers *)

Lemma to_uppercase_call_result_witness :
  Sse.build_response abc_call =
    Ok (VDict [("jsonrpc", VStr "2.0"); ("id", VInt 1);
               ("result",
                VDict [("content", VList [VDict [("type", VStr "text");
                                                 ("text", VStr "ABC")]]);
                       ("isError", VBool false)])]) ∧
  Streamable.handle_mcp (post_body abc_call) =
    Ok (Streamable.JSONResponse 200
          (VDict [("jsonrpc", VStr "2.0"); ("id", VInt 1);
                  ("result",
                   VDict [("content", VList [VDict [("type", VStr "text");
                                                    ("text", VStr "ABC")]]);
                          ("isError", VBool false)])])).
Proof.
  pose proof (to_uppercase_call_result (post_body abc_call) _ _ _ "abc"
                eq_refl eq_refl eq_refl eq_refl eq_refl eq_refl) as H.
  exact (conj (proj1 H) (proj1 (proj2 (proj2 H)))).
Defined.

(** The input [straße]: the text is [STRASSE], one letter longer. *)
Example to_uppercase_call_outside_ascii :
  Sse.build_response strasse_call =
    Ok (VDict [("jsonrpc", VStr "2.0"); ("id", VInt 1); ("result", text_result "STRASSE")]) ∧
  Streamable.handle_mcp (post_body strasse_call) =
    Ok (Streamable.JSONResponse 200
          (VDict [("jsonrpc", VStr "2.0"); ("id", VInt 1);
                  ("result", text_result "STRASSE")])).
Proof. split; reflexivity. Qed.

(** C2 fails on the streamable transport for an id that is [NaN]: the
    session-registry dispatcher returns the result, and [handle_mcp] raises
    [ValueError] where it builds the [JSONResponse]. *)
Lemma to_uppercase_nan_id_raises :
  Sse.build_response abc_call_nan_id =
    Ok (VDict [("jsonrpc", VStr "2.0"); ("id", VFloat "nan"); ("result", text_result "ABC")]) ∧
  Streamable.handle_mcp (post_body abc_call_nan_id) = Raise ValueError ∧
  Streamable.handle_mcp (post_body abc_call_surrogate_id) = Raise UnicodeEncodeError.
Proof. repeat split. Qed.

Lemma unknown_tool_is_an_error_witness :
  Sse.build_response unknown_tool_call =
    Ok (VDict [("jsonrpc", VStr "2.0"); ("id", VInt 2);
               ("error", VDict [("code", VInt (-32601));
                                ("message", VStr "Method not found")])]) ∧
  Streamable.handle_mcp (post_body unknown_tool_call) =
    Ok (Streamable.JSONResponse 200
          (VDict [("jsonrpc", VStr "2.0"); ("id", VInt 2);
                  ("error", VDict [("code", VInt (-32602));
                                   ("message", VStr "Unsupported tool name")])])).
Proof.
  pose proof (unknown_tool_is_an_error (post_body unknown_tool_call) _ _
                eq_refl eq_refl eq_refl) as (Hsse & Hmcp & _).
  exact (conj (Hsse eq_refl) (proj2 (Hmcp eq_refl eq_refl _ eq_refl))).
Defined.

(** C4 fails on the streamable transport for an unknown tool whose
    arguments are not an object: [handle_mcp] raises [AttributeError].  The
    session-registry dispatcher answers the same request with its error, and
    also a call of the slow tool, which it does not have. *)
Lemma unknown_tool_bad_arguments_raises :
  Streamable.handle_mcp (post_body unknown_tool_call_bad_arguments) = Raise AttributeError ∧
  Sse.build_response unknown_tool_call_bad_arguments = Ok (Sse.method_not_found (VInt 2)) ∧
  Sse.build_response slow_call_on_sse = Ok (Sse.method_not_found (VInt 6)).
Proof. repeat split. Qed.

Lemma response_echoes_request_id_witness :
  field "id"
    (VDict [("jsonrpc", VStr "2.0"); ("id", VNone);
            ("result", VDict [("tools", VList [Sse.to_uppercase_tool])])]) = Some VNone ∧
  field "id" (Streamable.base_response (VDict [("tools", Streamable.TOOLS)]) VNone
                (VStr "req-9")) = Some (VStr "req-9").
Proof.
  split.
  - exact (proj1 (response_echoes_request_id (post_body list_without_id) _ eq_refl)
             _ eq_refl).
  - exact (proj1 (proj2 (response_echoes_request_id (post_body list_with_id) _ eq_refl))
             _ _ eq_refl).
Defined.

Lemma envelope_has_result_xor_error_witness :
  one_of_result_error
    (VDict [("jsonrpc", VStr "2.0"); ("id", VInt 3);
            ("error", VDict [("code", VInt (-32601));
                             ("message", VStr "Method not found")])]) ∧
  one_of_result_error
    (Streamable.base_response (VDict [("tools", Streamable.TOOLS)]) VNone (VStr "req-9")).
Proof.
  split.
  - exact (proj1 (envelope_has_result_xor_error (post_body unknown_method_call) _ eq_refl)
             _ eq_refl).
  - exact (proj1 (proj2 (envelope_has_result_xor_error (post_body list_with_id) _ eq_refl))
             _ _ eq_refl).
Defined.

Lemma slow_tool_stream_witness :
  stream_of (Streamable.handle_mcp (post_body slow_call)) =
    Some (sse_frames
            (map (Streamable.event_payload (VStr "tok-1")) [1; 2; 3; 4; 5; 6; 7; 8; 9; 10]
             ++ [Streamable.base_response (text_result "ABC") VNone (VInt 7)])%list,
          None).
Proof.
  exact (proj1 (slow_tool_stream (post_body slow_call) _ _ _ _
                  eq_refl eq_refl eq_refl eq_refl eq_refl eq_refl)).
Defined.

(** C1 fails for a call of the slow tool whose [_meta] is null: the handler
    returns a stream, and the stream raises [AttributeError] before its
    first frame, so there is no progress frame and no terminal frame. *)
Lemma slow_tool_null_meta_no_frames :
  at_path [Key "params"; Key "_meta"] slow_call_null_meta = Some VNone ∧
  (∃ g, Streamable.handle_mcp (post_body slow_call_null_meta) =
          Ok (Streamable.StreamingResponse g)) ∧
  stream_of (Streamable.handle_mcp (post_body slow_call_null_meta)) =
    Some ([], Some AttributeError).
Proof. split; [reflexivity|]. split; [by eexists|reflexivity]. Qed.

(** A call without [_meta]: every notification of its stream has the key
    [progressToken], with the value null. *)
Lemma progress_token_null_not_absent :
  let meta : dict := [] in
  let notification := Streamable.event_payload VNone in
  stream_of (Streamable.handle_mcp (post_body slow_call_without_token)) =
    Some (sse_frames
            (map notification [1; 2; 3; 4; 5; 6; 7; 8; 9; 10]
             ++ [Streamable.base_response (text_result "ABC") VNone (VInt 8)])%list,
          None) ∧
  at_path [Key "params"; Key "_meta"] slow_call_without_token = None ∧
  dict_lookup meta "progressToken" = None ∧
  at_path [Key "params"; Key "progressToken"] (notification 1) = Some VNone ∧
  ¬ token_as_claimed meta (notification 1).
Proof. repeat split. discriminate. Qed.

Lemma progress_notification_shape_witness :
  stream_of (Streamable.handle_mcp (post_body slow_call)) =
    Some (sse_frames
            (map (Streamable.event_payload (VStr "tok-1")) [1; 2; 3; 4; 5; 6; 7; 8; 9; 10]
             ++ [Streamable.base_response (text_result "ABC") VNone (VInt 7)])%list,
          None) ∧
  field "id" (Streamable.event_payload (VStr "tok-1") 1) = None ∧
  at_path [Key "params"; Key "progressToken"] (Streamable.event_payload (VStr "tok-1") 1) =
    Some (VStr "tok-1").
Proof.
  pose proof (progress_notification_shape (post_body slow_call) _ _ _ _
                eq_refl eq_refl eq_refl eq_refl eq_refl eq_refl) as [Hstream Hshape].
  destruct (Hshape 1) as (_ & Hid & _ & Htoken & _).
  exact (conj Hstream (conj Hid (Htoken _ eq_refl))).
Defined.

Lemma input_is_coerced_by_str_witness :
  Streamable.handle_mcp (post_body number_call) =
    Ok (Streamable.JSONResponse 200
          (Streamable.base_response (text_result "[42, NONE, TRUE, 'ABC', 2.5]")
             VNone (VInt 4))).
Proof.
  exact (proj2 (proj1 (input_is_coerced_by_str (post_body number_call) _ _ _
                         eq_refl eq_refl eq_refl eq_refl) eq_refl)).
Defined.

(** A list with [é] as input: [repr] keeps the letter, and [upper] turns it
    into [É]. *)
Example input_outside_ascii_is_coerced :
  Streamable.handle_mcp (post_body e_acute_list_call) =
    Ok (Streamable.JSONResponse 200
          (Streamable.base_response (text_result ("['" ++ [201%N] ++ "']"))
             VNone (VInt 1))).
Proof. reflexivity. Qed.

(** C9 fails for a number as input when the id of the request is [1e400],
    which [json.loads] reads as infinity: [handle_mcp] raises [ValueError]
    where it builds the [JSONResponse], and the call returns no result. *)
Lemma number_input_inf_id_raises :
  at_path [Key "params"; Key "arguments"; Key "input"] number_call_inf_id =
    Some (VInt 42) ∧
  Streamable.handle_mcp (post_body number_call_inf_id) = Raise ValueError.
Proof. split; reflexivity. Qed.

(** ** The session registry *)

Lemma post_to_unknown_session_witness :
  Sse.post_message (post_to "5f0c" abc_call) (Sse.run closed_history Sse.initial_world) =
    (Raise (HTTPException 404 "session not found; establish the SSE stream first"),
     Sse.run closed_history Sse.initial_world).
Proof.
  apply (post_to_unknown_session closed_history (post_to "5f0c" abc_call) "5f0c").
  - reflexivity.
  - discriminate.
  - reflexivity.
Defined.

Lemma notification_is_answered_witness :
  let w := Sse.run open_history Sse.initial_world in
  let response :=
    VDict [("jsonrpc", VStr "2.0"); ("id", VNone);
           ("error", VDict [("code", VInt (-32601)); ("message", VStr "Method not found")])] in
  field "id" response = Some VNone ∧
  Sse.post_message (post_to "a1b2" initialized_notification) w =
    (Ok (Sse.JSONResponse 202 (VDict [("status", VStr "accepted")])),
     {| Sse.sessions := Sse.sessions w;
        Sse.queues :=
          <[2%positive := (Sse.queue_items w 2%positive
                           ++ [Sse.format_sse "message" (json_dumps response)])%list]>
            (Sse.queues w) |}).
Proof.
  refine (proj1 (notification_is_answered (post_to "a1b2" initialized_notification)
                   "a1b2" 2%positive _ (Sse.run open_history Sse.initial_world)
                   eq_refl _ _ eq_refl eq_refl) _ eq_refl).
  - discriminate.
  - by vm_compute.
Defined.



(** ** More about the code *)

Lemma sessions_do_not_share_queues_witness :
  let w := Sse.run open_history Sse.initial_world in
  (1%positive ≠ 2%positive) ∧ 1%positive ∈ dom (Sse.queues w) ∧ 2%positive ∈ dom (Sse.queues w).
Proof.
  apply (sessions_do_not_share_queues open_history "5f0c" "a1b2"); [reflexivity..|discriminate].
Defined.

Lemma reused_id_takes_over_witness :
  let w := Sse.run open_history Sse.initial_world in
  ∃ queue w',
    Sse.sse_stream "a1b2" w = (Ok queue, w') ∧
    queue ≠ 2%positive ∧
    Sse.sessions w' !! "a1b2" = Some queue ∧
    Sse.queue_items w' 2%positive = Sse.queue_items w 2%positive ∧
    Sse.queue_items (Sse.post_message (post_to "a1b2" abc_call) w').2 2%positive =
      Sse.queue_items w 2%positive ∧
    Sse.sessions (Sse.event_generator_finally "a1b2" w').2 !! "a1b2" = None.
Proof.
  apply (reused_id_takes_over open_history "a1b2" 2%positive (post_to "a1b2" abc_call));
    reflexivity.
Defined.

Lemma post_leaves_other_sessions_alone_witness :
  let w := Sse.run open_history Sse.initial_world in
  Sse.queues (Sse.post_message (post_to "a1b2" abc_call) w).2 !! 1%positive =
    Sse.queues w !! 1%positive.
Proof.
  apply (post_leaves_other_sessions_alone open_history (post_to "a1b2" abc_call)
           "a1b2" "5f0c" 1%positive); [reflexivity..|discriminate].
Defined.

Lemma frames_arrive_in_order_witness :
  let requests := [post_to "a1b2" abc_call; post_to "a1b2" initialized_notification] in
  let w' := Sse.run (Sse.PostMessage <$> requests) started_world in
  (event_generator_take 3 2%positive w').1 =
    [Sse.format_sse "endpoint" "http://localhost:8080/message?sessionid=a1b2";
     Sse.format_sse "message"
       (json_dumps (VDict [("jsonrpc", VStr "2.0"); ("id", VInt 1);
                           ("result", text_result "ABC")]));
     Sse.format_sse "message"
       (json_dumps (VDict [("jsonrpc", VStr "2.0"); ("id", VNone);
                           ("error", VDict [("code", VInt (-32601));
                                            ("message", VStr "Method not found")])]))] ∧
  Sse.event_generator_next 2%positive (event_generator_take 3 2%positive w').2 = None.
Proof.
  apply (frames_arrive_in_order "a1b2" 2%positive
           [post_to "a1b2" abc_call; post_to "a1b2" initialized_notification]
           [VDict [("jsonrpc", VStr "2.0"); ("id", VInt 1); ("result", text_result "ABC")];
            VDict [("jsonrpc", VStr "2.0"); ("id", VNone);
                   ("error", VDict [("code", VInt (-32601));
                                    ("message", VStr "Method not found")])]]
           started_world).
  - discriminate.
  - reflexivity.
  - repeat constructor.
Defined.

Lemma post_after_stream_end_is_lost_witness :
  let request := post_to "a1b2" abc_call in
  let closed := (Sse.event_generator_finally "a1b2" started_world).2 in
  let delivered := (post_message_deliver request 2%positive closed).2 in
  post_message_lookup request started_world = (Ok 2%positive, started_world) ∧
  (post_message_deliver request 2%positive closed).1 =
    Ok (Sse.JSONResponse 202 (VDict [("status", VStr "accepted")])) ∧
  Sse.post_message request delivered =
    (Raise (HTTPException 404 "session not found; establish the SSE stream first"),
     delivered).
Proof.
  pose proof (post_after_stream_end_is_lost
                started_history
                (post_to "a1b2" abc_call) "a1b2" 2%positive
                (VDict [("jsonrpc", VStr "2.0"); ("id", VInt 1);
                        ("result", text_result "ABC")])) as H.
  destruct H as (_ & Hlookup & Hanswer & _ & _ & Hretry);
    [reflexivity | discriminate | reflexivity | reflexivity |].
  exact (conj Hlookup (conj Hanswer Hretry)).
Defined.

Lemma post_to_open_session_witness :
  let w := Sse.run open_history Sse.initial_world in
  ∃ queue,
    Sse.sessions w !! "a1b2" = Some queue ∧
    Sse.post_message (post_to "a1b2" abc_call) w =
      (Ok (Sse.JSONResponse 202 (VDict [("status", VStr "accepted")])),
       {| Sse.sessions := Sse.sessions w;
          Sse.queues :=
            <[queue := (Sse.queue_items w queue
                        ++ [Sse.format_sse "message"
                              (json_dumps (VDict [("jsonrpc", VStr "2.0"); ("id", VInt 1);
                                                  ("result", text_result "ABC")]))])%list]>
              (Sse.queues w) |}).
Proof.
  apply (post_to_open_session open_history (post_to "a1b2" abc_call) "a1b2");
    [reflexivity | discriminate | reflexivity | reflexivity].
Defined.

Lemma transports_agree_outside_tools_witness :
  let envelope :=
    VDict [("jsonrpc", VStr "2.0"); ("id", VInt 5); ("result", Sse.initialize_result)] in
  Sse.build_response initialize_call = Ok envelope ∧
  Streamable.handle_mcp (post_body initialize_call) =
    Ok (Streamable.JSONResponse 200 envelope).
Proof.
  pose proof (transports_agree_outside_tools (post_body initialize_call) _
                eq_refl eq_refl eq_refl) as H.
  exact (conj (proj1 H) (proj2 (proj2 H))).
Defined.

Lemma dispatch_reads_three_fields_witness :
  Sse.build_response abc_call = Sse.build_response abc_call_bare ∧
  Streamable.handle_mcp (post_body abc_call) = Streamable.handle_mcp (post_body abc_call_bare).
Proof.
  exact (dispatch_reads_three_fields (post_body abc_call) (post_body abc_call_bare) _ _
           eq_refl eq_refl eq_refl eq_refl eq_refl).
Defined.


Lemma bad_meta_fails_inside_the_stream_witness :
  stream_of (Streamable.handle_mcp (post_body slow_call_bad_meta)) =
    Some ([], Some AttributeError).
Proof.
  apply (bad_meta_fails_inside_the_stream (post_body slow_call_bad_meta) _ _ _ (VStr "tok-1")
           eq_refl eq_refl eq_refl eq_refl eq_refl eq_refl).
  intros m. discriminate.
Defined.

Lemma format_sse_is_injective_witness :
  (Sse.format_sse "endpoint" "/message?sessionid=a1b2" =
     Sse.format_sse "endpoint" "/message?sessionid=a1b2" →
   "endpoint" = "endpoint" ∧ "/message?sessionid=a1b2" = "/message?sessionid=a1b2") ∧
  (Streamable.format_sse "endpoint" "/message?sessionid=a1b2" =
     Streamable.format_sse "endpoint" "/message?sessionid=a1b2" →
   "endpoint" = "endpoint" ∧ "/message?sessionid=a1b2" = "/message?sessionid=a1b2").
Proof.
  exact (format_sse_is_injective "endpoint" "/message?sessionid=a1b2"
           "endpoint" "/message?sessionid=a1b2" eq_refl eq_refl).
Defined.

Lemma message_frames_hold_one_line_witness :
  newline_free
    (json_dumps (VDict [("jsonrpc", VStr "2.0"); ("id", VInt 1);
                        ("result", text_result "ABC")])) = true.
Proof.
  exact (proj1 (message_frames_hold_one_line (post_body abc_call) abc_call eq_refl eq_refl)
           _ eq_refl).
Defined.

(** A POST with a body that is not JSON: to a session that is not open it
    is answered 404, as the session is looked up first; to an open session
    it raises the exception of [request.json()] and puts nothing on the
    queue. *)
Example post_with_garbage :
  let w := Sse.run open_history Sse.initial_world in
  Sse.post_message (post_garbage_to "0000") w =
    (Raise (HTTPException 404 "session not found; establish the SSE stream first"), w) ∧
  Sse.post_message (post_garbage_to "a1b2") w = (Raise JSONDecodeError, w) ∧
  Streamable.handle_mcp (post_garbage_to "a1b2") = Raise JSONDecodeError.
Proof. repeat split. Qed.
